(** * benchy: a verification development for [benchy/benchmark.py]

    The development embeds the benchmark identity ([Benchmark.checksum]),
    the adaptive timer ([magic_timeit]), the execution sandbox
    ([Benchmark.run]) and the discovery pass ([gather_benchmarks]) and
    proves properties of them.

    Conventions of the embedding:
    - a Python 2 [str] is a byte string, here [string] (8-bit [ascii]);
    - a Python [int] is a [Z];
    - a Python [float] holding a time is an exact rational [Q]: rounding of
      IEEE doubles is not modelled, comparisons and thresholds are;
      [floor_log10] is the decade of a rational, which [math.log10] matches
      except just below a power of ten, and [magic_timeit_by] leaves that
      function to the platform;
    - a result [dict] is a [gmap string pyval];
    - user snippets are opaque text; what executing them does is given by
      the interpreter functions of a [Runtime]. *)

From Stdlib Require Import ZArith QArith String Ascii List Lia.
From stdpp Require Import base strings gmap.
Import ListNotations.

Local Open Scope Z_scope.

(* ===================================================================== *)
(** ** hashlib.md5: RFC 1321 on byte strings *)
(* ===================================================================== *)

Module MD5.

Definition w32 (x : Z) : Z := x mod 2 ^ 32.
Definition add32 (x y : Z) : Z := w32 (x + y).
Definition not32 (x : Z) : Z := Z.lxor x 0xffffffff.
Definition rotl32 (x n : Z) : Z :=
  Z.lor (w32 (Z.shiftl x n)) (Z.shiftr x (32 - n)).

(** Per-round shift amounts. *)
Definition S : list Z :=
  [ 7; 12; 17; 22; 7; 12; 17; 22; 7; 12; 17; 22; 7; 12; 17; 22;
    5; 9; 14; 20; 5; 9; 14; 20; 5; 9; 14; 20; 5; 9; 14; 20;
    4; 11; 16; 23; 4; 11; 16; 23; 4; 11; 16; 23; 4; 11; 16; 23;
    6; 10; 15; 21; 6; 10; 15; 21; 6; 10; 15; 21; 6; 10; 15; 21 ].

(** [K i = floor (2^32 * |sin (i + 1)|)]. *)
Definition K : list Z :=
  [ 0xd76aa478; 0xe8c7b756; 0x242070db; 0xc1bdceee;
    0xf57c0faf; 0x4787c62a; 0xa8304613; 0xfd469501;
    0x698098d8; 0x8b44f7af; 0xffff5bb1; 0x895cd7be;
    0x6b901122; 0xfd987193; 0xa679438e; 0x49b40821;
    0xf61e2562; 0xc040b340; 0x265e5a51; 0xe9b6c7aa;
    0xd62f105d; 0x02441453; 0xd8a1e681; 0xe7d3fbc8;
    0x21e1cde6; 0xc33707d6; 0xf4d50d87; 0x455a14ed;
    0xa9e3e905; 0xfcefa3f8; 0x676f02d9; 0x8d2a4c8a;
    0xfffa3942; 0x8771f681; 0x6d9d6122; 0xfde5380c;
    0xa4beea44; 0x4bdecfa9; 0xf6bb4b60; 0xbebfbc70;
    0x289b7ec6; 0xeaa127fa; 0xd4ef3085; 0x04881d05;
    0xd9d4d039; 0xe6db99e5; 0x1fa27cf8; 0xc4ac5665;
    0xf4292244; 0x432aff97; 0xab9423a7; 0xfc93a039;
    0x655b59c3; 0x8f0ccc92; 0xffeff47d; 0x85845dd1;
    0x6fa87e4f; 0xfe2ce6e0; 0xa3014314; 0x4e0811a1;
    0xf7537e82; 0xbd3af235; 0x2ad7d2bb; 0xeb86d391 ].

Definition bytes_of_string (s : string) : list Z :=
  map (fun c => Z.of_N (N_of_ascii c)) (list_ascii_of_string s).

(** Little-endian encoding of [x] on [n] bytes. *)
Fixpoint le_bytes (n : nat) (x : Z) : list Z :=
  match n with
  | O => []
  | Datatypes.S n' => x mod 256 :: le_bytes n' (x / 256)
  end.

Fixpoint le_word (bs : list Z) : Z :=
  match bs with
  | [] => 0
  | b :: bs' => b + 256 * le_word bs'
  end.

(** Message padding: a [0x80] byte, zeros up to 56 mod 64, then the bit
    length on 8 little-endian bytes. *)
Definition pad (msg : list Z) : list Z :=
  let len := Z.of_nat (length msg) in
  let zeros := Z.to_nat ((55 - len) mod 64) in
  msg ++ [0x80] ++ repeat 0 zeros ++ le_bytes 8 ((8 * len) mod 2 ^ 64).

Fixpoint chunks (fuel n : nat) (l : list Z) : list (list Z) :=
  match fuel with
  | O => []
  | Datatypes.S fuel' =>
      match l with
      | [] => []
      | _ => firstn n l :: chunks fuel' n (skipn n l)
      end
  end.

Definition words_of_block (blk : list Z) : list Z :=
  map le_word (chunks 16 4 blk).

Record regs := Regs { rA : Z; rB : Z; rC : Z; rD : Z }.

Definition init : regs :=
  Regs 0x67452301 0xefcdab89 0x98badcfe 0x10325476.

Definition step (M : list Z) (r : regs) (i : Z) : regs :=
  let '(Regs a b c d) := r in
  let '(f, g) :=
    if i <? 16 then (Z.lor (Z.land b c) (Z.land (not32 b) d), i)
    else if i <? 32 then (Z.lor (Z.land d b) (Z.land (not32 d) c), (5 * i + 1) mod 16)
    else if i <? 48 then (Z.lxor (Z.lxor b c) d, (3 * i + 5) mod 16)
    else (Z.lxor c (Z.lor b (not32 d)), (7 * i) mod 16) in
  let f' := add32 (add32 (add32 f a) (nth (Z.to_nat i) K 0)) (nth (Z.to_nat g) M 0) in
  Regs d (add32 b (rotl32 f' (nth (Z.to_nat i) S 0))) b c.

Definition compress (r : regs) (blk : list Z) : regs :=
  let M := words_of_block blk in
  let r' := fold_left (step M) (map Z.of_nat (seq 0 64)) r in
  Regs (add32 (rA r) (rA r')) (add32 (rB r) (rB r'))
       (add32 (rC r) (rC r')) (add32 (rD r) (rD r')).

Definition digest (msg : list Z) : list Z :=
  let p := pad msg in
  let r := fold_left compress (chunks (length p) 64 p) init in
  le_bytes 4 (rA r) ++ le_bytes 4 (rB r) ++ le_bytes 4 (rC r) ++ le_bytes 4 (rD r).

Definition hex_digit (n : Z) : ascii :=
  nth (Z.to_nat n) (list_ascii_of_string "0123456789abcdef") "0"%char.

Definition hex_of_bytes (bs : list Z) : string :=
  string_of_list_ascii
    (flat_map (fun b => [hex_digit (b / 16); hex_digit (b mod 16)]) bs).

(** [hashlib.md5(s).hexdigest()] *)
Definition hexdigest (s : string) : string :=
  hex_of_bytes (digest (bytes_of_string s)).

End MD5.

(* ===================================================================== *)
(** ** Python values, exceptions and the builtins the module uses *)
(* ===================================================================== *)

(** A raised exception: its class name, its message and the formatted
    stack entries that [traceback] prints for it. *)
Record exn := Exn { exc_type : string; exc_msg : string; exc_tb : string }.

Definition ZeroDivisionError : exn :=
  Exn "ZeroDivisionError" "float division by zero" "".
Definition ValueError_min : exn :=
  Exn "ValueError" "min() arg is an empty sequence" "".
Definition IndexError : exn :=
  Exn "IndexError" "list index out of range" "".

Inductive outcome (A : Type) : Type :=
| Return (a : A)
| Raise (e : exn).
Arguments Return {A} a.
Arguments Raise {A} e.

(** The values stored in a result dict. *)
Inductive pyval : Type :=
| PyBool (b : bool)
| PyInt (z : Z)
| PyFloat (q : Q)
| PyStr (s : string).

Definition newline : string := String (ascii_of_nat 10) EmptyString.

(** [traceback.print_exc(file=buf); buf.getvalue()] for the exception being
    handled: the fixed header, the stack entries, then [Type: message]. *)
Definition print_exc (e : exn) : string :=
  ("Traceback (most recent call last):" ++ newline
   ++ exc_tb e ++ exc_type e ++ ": " ++ exc_msg e ++ newline)%string.

Definition Qltb (x y : Q) : bool := negb (Qle_bool y x).

(** [min(l)] on a list of floats: the first smallest element, [ValueError]
    on the empty list. *)
Fixpoint min_from (m : Q) (l : list Q) : Q :=
  match l with
  | [] => m
  | x :: l' => min_from (if Qltb x m then x else m) l'
  end.

Definition py_min (l : list Q) : outcome Q :=
  match l with
  | [] => Raise ValueError_min
  | x :: l' => Return (min_from x l')
  end.

(** [x / n] for a float [x] and an int [n]. *)
Definition py_div (x : Q) (n : Z) : outcome Q :=
  if n =? 0 then Raise ZeroDivisionError else Return (x / inject_Z n)%Q.

(** [l[i]], with Python's negative indices. *)
Definition py_getitem {A : Type} (l : list A) (i : Z) : outcome A :=
  let n := Z.of_nat (length l) in
  let j := if i <? 0 then i + n else i in
  if (0 <=? j) && (j <? n) then
    match nth_error l (Z.to_nat j) with
    | Some x => Return x
    | None => Raise IndexError
    end
  else Raise IndexError.

(** [range(a, b)] *)
Definition py_range (a b : Z) : list Z :=
  map (fun i => a + Z.of_nat i) (seq 0 (Z.to_nat (b - a))).

(** [math.floor(math.log10(q))] for [q > 0], computed exactly: the decade
    [k] with [10^k <= q < 10^(k+1)]. *)
Fixpoint log10_up (fuel : nat) (n d : Z) : Z :=
  match fuel with
  | O => 0
  | S f => if d * 10 <=? n then 1 + log10_up f n (d * 10) else 0
  end.

Fixpoint log10_down (fuel : nat) (n d : Z) : Z :=
  match fuel with
  | O => 1
  | S f => if d <=? n * 10 then 1 else 1 + log10_down f (n * 10) d
  end.

Definition floor_log10 (q : Q) : Z :=
  let n := Qnum q in
  let d := Z.pos (Qden q) in
  if d <=? n then log10_up (S (Z.to_nat (Z.log2 n))) n d
  else - log10_down (S (Z.to_nat (Z.log2 d))) n d.

(* ===================================================================== *)
(** ** The benchmark definition and its identity *)
(* ===================================================================== *)

(** The attributes set by [Benchmark.__init__]. *)
Record Benchmark := mkBenchmark {
  code : string;
  setup : string;
  cleanup : string;
  ncalls : option Z;
  repeat : Z;
  name : option string;
  description : option string;
  start_date : option Z;
  logy : bool;
  db_path : option string
}.

(** The default of [repeat] in the signatures of [Benchmark.__init__] and
    [magic_timeit]. *)
Definition default_repeat : Z := 3.

(** [Benchmark.__init__]: an argument that is [None] here was left out by
    the caller and takes the default of the signature.  For [repeat] and
    [logy] an argument passed as [None] explicitly, which [__init__] would
    store as [None], is outside the model. *)
Definition Benchmark_init (code setup : string) (ncalls repeat : option Z)
    (cleanup name description : option string) (start_date : option Z)
    (logy : option bool) (db_path : option string) : Benchmark :=
  {| code := code;
     setup := setup;
     cleanup := match cleanup with Some c => c | None => "" end;
     ncalls := ncalls;
     repeat := match repeat with Some r => r | None => default_repeat end;
     name := name;
     description := description;
     start_date := start_date;
     logy := match logy with Some b => b | None => false end;
     db_path := db_path |}.

(** [Benchmark.checksum] *)
Definition checksum (self : Benchmark) : string :=
  MD5.hexdigest (setup self ++ code self ++ cleanup self).

(* ===================================================================== *)
(** ** Executing snippets: the runtime, the run state and its monad *)
(* ===================================================================== *)

(** What the Python interpreter and the [timeit] module do with the
    snippets.  [Env] is the type of namespaces (the dict [ns]). *)
Record Runtime := mkRuntime {
  Env : Type;
  (** [globals().copy()] *)
  globals_copy : Env;
  (** [exec text in ns]: the exception raised, if any, and [ns] afterwards *)
  exec_ : string -> Env -> option exn * Env;
  (** lines 225-232: expand [timeit.template] around the statement,
      [compile] it and [exec] it in [ns], which binds [inner] *)
  define_inner : string -> Env -> option exn * Env;
  (** [timer.timeit(number)] for the [inner] built from the statement: one
      timed trial of [number] executions in [ns] *)
  timeit_ : string -> Z -> Env -> outcome Q * Env
}.

(** What a run did, in order; a timed trial is entered with what it
    returned or raised. *)
Inductive event : Type :=
| EvSetup (text : string)
| EvDefineInner (stmt : string)
| EvTimeit (stmt : string) (number : Z) (elapsed : outcome Q)
| EvCleanup (text : string).

Section Run.

Context (R : Runtime).

(** The namespace of the run and the journal of what was executed. *)
Record state := mkState { ns : Env R; journal : list event }.

Definition M (A : Type) : Type := state -> outcome A * state.

Definition ret {A : Type} (a : A) : M A := fun s => (Return a, s).

Definition raise {A : Type} (e : exn) : M A := fun s => (Raise e, s).

Definition bind {A B : Type} (c : M A) (k : A -> M B) : M B :=
  fun s =>
    match c s with
    | (Return a, s') => k a s'
    | (Raise e, s') => (Raise e, s')
    end.

(** [try: c except: h] with a bare [except]. *)
Definition try_except {A : Type} (c : M A) (h : exn -> M A) : M A :=
  fun s =>
    match c s with
    | (Return a, s') => (Return a, s')
    | (Raise e, s') => h e s'
    end.

Definition lift {A : Type} (o : outcome A) : M A := fun s => (o, s).

Definition record (ev : event) : M unit :=
  fun s => (Return tt, mkState (ns s) (journal s ++ [ev])).

Definition in_ns (f : Env R -> option exn * Env R) : M unit :=
  fun s =>
    let '(r, ns') := f (ns s) in
    (match r with None => Return tt | Some e => Raise e end,
     mkState ns' (journal s)).

End Run.

Arguments ns {R} s.
Arguments journal {R} s.
Arguments mkState {R} ns journal.
Arguments ret {R A} a.
Arguments raise {R A} e.
Arguments bind {R A B} c k.
Arguments try_except {R A} c h.
Arguments lift {R A} o.
Arguments record {R} ev.
Arguments in_ns {R} f.

Notation "x <- c ;; k" := (bind c (fun x => k))
  (at level 100, c at next level, right associativity).
Notation "c ;;; k" := (bind c (fun _ => k))
  (at level 100, right associativity).

Section Sandbox.

Context (R : Runtime).

(** [timer.timeit(number)] *)
Definition timeit (stmt : string) (number : Z) : M R Q :=
  fun s =>
    let '(r, ns') := timeit_ R stmt number (ns s) in
    (r, mkState ns' (journal s ++ [EvTimeit stmt number r])).

(** [timer.repeat(repeat, number)]: [repeat] trials, in order. *)
Fixpoint repeat_trials (stmt : string) (n : nat) (number : Z) : M R (list Q) :=
  match n with
  | O => ret []
  | S n' =>
      t <- timeit stmt number ;;
      r <- repeat_trials stmt n' number ;;
      ret (t :: r)
  end.

Definition Timer_repeat (stmt : string) (repeat number : Z) : M R (list Q) :=
  repeat_trials stmt (Z.to_nat repeat) number.

(** Lines 236-240: the calibration loop, [number] being the count on
    entry and [iters] what remains of [range(1, 10)]. *)
Fixpoint calibrate (stmt : string) (iters : list Z) (number : Z) : M R Z :=
  match iters with
  | [] => ret number
  | _ :: iters' =>
      t <- timeit stmt number ;;
      if Qle_bool (1 # 10) t then ret number
      else calibrate stmt iters' (number * 10)
  end.

(** Lines 234-242: the iteration count, calibrated when [ncalls] is
    [None]. *)
Definition choose_number (stmt : string) (ncalls : option Z) : M R Z :=
  match ncalls with
  | None => calibrate stmt (py_range 1 10) 1
  | Some n => ret n
  end.

Definition units : list string := ["s"; "ms"; "us"; "ns"]%string.
Definition scaling : list Q := [1; 1000; 1000000; 1000000000]%Q.

(** Lines 246-254: the index into [units] and [scaling]. *)
Definition select_order (force_ms : bool) (best : Q) : Z :=
  if force_ms then 1
  else if Qltb 0 best && Qltb best 1000 then
    Z.min (- (floor_log10 best / 3)) 3
  else if Qle_bool 1000 best then 0
  else 3.

(** [magic_timeit(ns, stmt, ncalls, repeat, force_ms)] *)
Definition magic_timeit (stmt : string) (ncalls : option Z) (repeat : Z)
    (force_ms : bool) : M R (gmap string pyval) :=
  record (EvDefineInner stmt) ;;;
  in_ns (define_inner R stmt) ;;;
  number <- choose_number stmt ncalls ;;
  trials <- Timer_repeat stmt repeat number ;;
  m <- lift (py_min trials) ;;
  best <- lift (py_div m number) ;;
  let order := select_order force_ms best in
  factor <- lift (py_getitem scaling order) ;;
  unit_ <- lift (py_getitem units order) ;;
  ret (<["loops" := PyInt number]>
       (<["repeat" := PyInt repeat]>
        (<["timing" := PyFloat (best * factor)]>
         (<["units" := PyStr unit_]> ∅)))).

(** [Benchmark._setup]: the fresh namespace becomes the namespace of the
    run. *)
Definition _setup (self : Benchmark) : M R unit :=
  (fun s => (Return tt, mkState (globals_copy R) (journal s))) ;;;
  record (EvSetup (setup self)) ;;;
  in_ns (exec_ R (setup self)).

(** [Benchmark._cleanup] *)
Definition _cleanup (self : Benchmark) : M R unit :=
  record (EvCleanup (cleanup self)) ;;;
  in_ns (exec_ R (cleanup self)).

(** [Benchmark.run] *)
Definition run (self : Benchmark) : M R (gmap string pyval) :=
  _setup self ;;;
  result <- try_except
              (result <- magic_timeit (code self) (ncalls self)
                           (repeat self) true ;;
               ret (<["success" := PyBool true]> result))
              (fun e =>
                 ret (<["success" := PyBool false]>
                      (<["traceback" := PyStr (print_exc e)]> ∅))) ;;
  _cleanup self ;;;
  ret result.

End Sandbox.

Arguments timeit {R} stmt number.
Arguments Timer_repeat {R} stmt repeat number.
Arguments calibrate {R} stmt iters number.
Arguments choose_number {R} stmt ncalls.
Arguments magic_timeit {R} stmt ncalls repeat force_ms.
Arguments _setup {R} self.
Arguments _cleanup {R} self.
Arguments run {R} self.

(** Reading a journal: the events of successive trials whose counts start
    at [c] and grow tenfold, the counts of the trials a journal holds, and
    how many times it ran a cleanup text. *)
Fixpoint attempts (stmt : string) (c : Z) (ts : list Q) : list event :=
  match ts with
  | [] => []
  | t :: ts' => EvTimeit stmt c (Return t) :: attempts stmt (c * 10) ts'
  end.

Definition timed_counts (j : list event) : list Z :=
  flat_map (fun ev => match ev with EvTimeit _ c _ => [c] | _ => [] end) j.

Definition is_cleanup (ev : event) : bool :=
  match ev with EvCleanup _ => true | _ => false end.

Definition is_timing (ev : event) : bool :=
  match ev with EvDefineInner _ | EvTimeit _ _ _ => true | _ => false end.

Definition count_cleanups (j : list event) : nat :=
  length (List.filter is_cleanup j).

(** The record [run] builds when the timed code fails. *)
Definition failure_record (e : exn) : gmap string pyval :=
  <["success" := PyBool false]> (<["traceback" := PyStr (print_exc e)]> ∅).

(** The dict [magic_timeit] returns. *)
Definition report (number rep : Z) (best factor : Q) (unit_ : string)
    : gmap string pyval :=
  <["loops" := PyInt number]>
    (<["repeat" := PyInt rep]>
       (<["timing" := PyFloat (best * factor)]>
          (<["units" := PyStr unit_]> ∅))).

(** The record [run] holds after its [try] statement. *)
Definition run_result (o : outcome (gmap string pyval)) : gmap string pyval :=
  match o with
  | Return r => <["success" := PyBool true]> r
  | Raise e => failure_record e
  end.

(** A computation that enters only timing events in the journal. *)
Definition timing_only {R : Runtime} {A : Type} (c : M R A) : Prop :=
  forall s o s', c s = (o, s') ->
    exists evs, journal s' = journal s ++ evs
                /\ Forall (fun ev => is_timing ev = true) evs.

(** [magic_timeit] called with [repeat] and [force_ms] left out. *)
Definition magic_timeit_defaults {R : Runtime} (stmt : string)
    (ncalls : option Z) : M R (gmap string pyval) :=
  magic_timeit stmt ncalls default_repeat false.

(** Modelled from the spec: the batch driver is not part of the module; it
    calls [run] on every benchmark in order and collects the results, so a
    failure that [run] propagates ends the batch. *)
Fixpoint run_all {R : Runtime} (bs : list Benchmark)
    : M R (list (gmap string pyval)) :=
  match bs with
  | [] => ret []
  | b :: bs' =>
      r <- run b ;;
      rs <- run_all bs' ;;
      ret (r :: rs)
  end.

(* ===================================================================== *)
(** ** Discovery *)
(* ===================================================================== *)

(** The objects a namespace or a suite can hold. *)
#[local] Set Warnings "-register-all".
Inductive pyobj : Type :=
| OBenchmark (b : Benchmark)
| OSuite (elems : list pyobj)
| OStr (s : string)
| OInt (z : Z).

Definition isinstance_Benchmark (v : pyobj) : bool :=
  match v with OBenchmark _ => true | _ => false end.

(** [BenchmarkSuite.benchmarks] *)
Definition benchmarks (self : list pyobj) : list pyobj :=
  List.filter isinstance_Benchmark self.

(** [gather_benchmarks(ns)], [ns] being given by its items in iteration
    order. *)
Definition gather_benchmarks (ns : list (string * pyobj)) : list pyobj :=
  fold_left
    (fun acc v =>
       match v with
       | OBenchmark _ => acc ++ [v]
       | OSuite elems => acc ++ benchmarks elems
       | _ => acc
       end)
    (map snd ns) [].

(** The flattening as the specification words it: benchmarks are kept,
    collections are entered recursively, anything else is dropped. *)
Fixpoint flatten_value (v : pyobj) : list pyobj :=
  match v with
  | OBenchmark _ => [v]
  | OSuite elems => flat_map flatten_value elems
  | _ => []
  end.

Definition flatten_spec (ns : list (string * pyobj)) : list pyobj :=
  flat_map flatten_value (map snd ns).

(* ===================================================================== *)
(** ** A small concrete runtime *)
(* ===================================================================== *)

(** Namespaces of the toy runtime: the snippets executed so far and the
    readings the clock will give to the next trials. *)
Record toy_env := mkToy { executed : list string; script : list Q }.

Definition toy_error : exn :=
  Exn "RuntimeError" "boom" ("  File <f>, line 1, in <module>" ++ newline).

Definition toy_exec (text : string) (env : toy_env) : option exn * toy_env :=
  if String.eqb text "raise" then (Some toy_error, env)
  else (None, mkToy (executed env ++ [text]) (script env)).

Definition toy_define_inner (stmt : string) (env : toy_env)
    : option exn * toy_env :=
  if String.eqb stmt "(" then
    (Some (Exn "SyntaxError" "invalid syntax" ""), env)
  else (None, mkToy (executed env ++ ["def inner"%string]) (script env)).

(** A trial takes the next scripted reading, or [cost * number] once the
    script is used up; the statement ["raise"] raises. *)
Definition toy_timeit (cost : Q) (stmt : string) (number : Z) (env : toy_env)
    : outcome Q * toy_env :=
  if String.eqb stmt "raise" then (Raise toy_error, env)
  else
    match script env with
    | t :: rest => (Return t, mkToy (executed env ++ [stmt]) rest)
    | [] => (Return (cost * inject_Z number)%Q, mkToy (executed env ++ [stmt]) [])
    end.

Definition toy (cost : Q) (readings : list Q) : Runtime :=
  {| Env := toy_env;
     globals_copy := mkToy [] readings;
     exec_ := toy_exec;
     define_inner := toy_define_inner;
     timeit_ := toy_timeit cost |}.

Definition toy_start (cost : Q) (readings : list Q) : state (toy cost readings) :=
  @mkState (toy cost readings) (mkToy [] readings) [].

Definition bench (code setup cleanup : string) (ncalls : option Z) : Benchmark :=
  Benchmark_init code setup ncalls None (Some cleanup) None None None None None.

(** The namespace of the discovery example: a benchmark, a suite holding a
    benchmark, a string and a nested suite, and an integer. *)
Definition bench_a : Benchmark := bench "f(1)" "from m import f" "" None.
Definition bench_b : Benchmark := bench "f(2)" "from m import f" "" None.
Definition bench_c : Benchmark := bench "f(3)" "from m import f" "" None.

Definition ns_example : list (string * pyobj) :=
  [ ("a", OBenchmark bench_a);
    ("b", OSuite [OBenchmark bench_b; OStr "not a benchmark";
                  OSuite [OBenchmark bench_c]]);
    ("c", OInt 42) ]%string.

(** What one value of the namespace contributes to [gather_benchmarks]. *)
Definition contribution (v : pyobj) : list pyobj :=
  match v with
  | OBenchmark _ => [v]
  | OSuite elems => List.filter isinstance_Benchmark elems
  | _ => []
  end.

(** Two definitions with different texts and the same concatenation, and
    two with the same texts and different metadata. *)
Definition split_early : Benchmark :=
  bench "y = x + 1" "x = 1; " "" None.
Definition split_late : Benchmark :=
  bench "x + 1" "x = 1; y = " "" None.

Definition plain : Benchmark :=
  Benchmark_init "f(x)" "x = 1" None None None None None None None None.
Definition decorated : Benchmark :=
  Benchmark_init "f(x)" "x = 1" (Some 100) (Some 5) (Some "")
    (Some "call f") (Some "calls f once") (Some 734000) (Some true)
    (Some "bench.db").

(** The runs the examples below are about. *)

(** The dict a computation returns from a state, empty if it raises. *)
Definition returned {R : Runtime} (c : M R (gmap string pyval)) (s : state R)
    : gmap string pyval :=
  match fst (c s) with Return r => r | Raise _ => ∅ end.

(** A statement taking 0.05 seconds per execution: one execution is below
    the threshold, ten are above it. *)
Definition slow_measure : M (toy (1 # 20) []) (gmap string pyval) :=
  magic_timeit "pass" None 3 false.

(** Three trials reading 5, 2 and 8 seconds, for four iterations each. *)
Definition three_trials : M (toy 0 [5; 2; 8]%Q) (gmap string pyval) :=
  magic_timeit "pass" (Some 4) 3 false.

(** One iteration per trial, each trial reading 0.0005 seconds. *)
Definition half_millisecond : M (toy 0 [1 # 2000; 1 # 2000; 1 # 2000]%Q)
                                (gmap string pyval) :=
  magic_timeit "pass" (Some 1) 3 false.

(** Three trials of zero iterations. *)
Definition zero_iterations : M (toy 0 []) (gmap string pyval) :=
  magic_timeit "pass" (Some 0) 3 false.

(** Benchmarks for the toy runtime, where a statement takes 2 seconds. *)
Definition ok_bench : Benchmark := bench "pass" "x = 1" "del x" None.
Definition failing_bench : Benchmark := bench "raise" "x = 1" "del x" None.
Definition failing_cleanup : Benchmark := bench "raise" "x = 1" "raise" None.
Definition failing_setup : Benchmark := bench "pass" "raise" "del x" None.

Definition two_seconds : Runtime := toy 2 [].
Definition fresh : state two_seconds := toy_start 2 [].

(** The state of a run of the toy benchmarks once the setup is done. *)
Definition after_setup : state two_seconds :=
  @mkState two_seconds (mkToy ["x = 1"%string] []) [EvSetup "x = 1"].

(* ===================================================================== *)
(** ** Rendering a benchmark as text *)
(* ===================================================================== *)

Definition nl : ascii := ascii_of_nat 10.

(** [s.split('\n')] *)
Fixpoint split_lines (s : string) : list string :=
  match s with
  | EmptyString => [EmptyString]
  | String c s' =>
      if Ascii.eqb c nl then EmptyString :: split_lines s'
      else
        match split_lines s' with
        | [] => [String c EmptyString]
        | l :: ls => String c l :: ls
        end
  end.

(** [' ' * spaces] *)
Definition spaces_str (spaces : Z) : string :=
  string_of_list_ascii (List.repeat " "%char (Z.to_nat spaces)).

(** [indent(string, spaces)] *)
Definition indent (string_ : string) (spaces : Z) : string :=
  let dent := spaces_str spaces in
  String.concat newline (map (fun x => (dent ++ x)%string) (split_lines string_)).

(** ['%s' % v] for a value that is [None] or a string. *)
Definition format_s (v : option string) : string :=
  match v with Some s => s | None => "None"%string end.

(** [Benchmark.__repr__] *)
Definition __repr__ (self : Benchmark) : string :=
  ("Benchmark('" ++ format_s (name self) ++ "')")%string.

(** [Benchmark.to_rst(image_path)], [indent] being called with its default
    of four spaces. *)
Definition to_rst (self : Benchmark) (image_path : option string) : string :=
  let output :=
    ("**Benchmark setup**" ++ newline ++ newline
     ++ ".. code-block:: python" ++ newline ++ newline
     ++ indent (setup self) 4 ++ newline ++ newline
     ++ "**Benchmark statement**" ++ newline ++ newline
     ++ ".. code-block:: python" ++ newline ++ newline
     ++ indent (code self) 4 ++ newline ++ newline)%string in
  match image_path with
  | Some path =>
      (output ++ "**Performance graph**" ++ newline ++ newline
       ++ ".. image:: " ++ path ++ newline ++ "   :width: 6in")%string
  | None => output
  end.

(** A string without a line break. *)
Definition one_line (s : string) : Prop := ~ In nl (list_ascii_of_string s).

(** A line that starts with the four spaces of an indented block. *)
Definition indented (x : string) : Prop :=
  exists y, x = ("    " ++ y)%string.

(** [decorated] under another name. *)
Definition renamed : Benchmark :=
  Benchmark_init "f(x)" "x = 1" (Some 100) (Some 5) (Some "")
    (Some "call g") (Some "calls f once") (Some 734000) (Some true)
    (Some "bench.db").

(** The characters of a lowercase hexadecimal number. *)
Definition hex_chars : list ascii := list_ascii_of_string "0123456789abcdef".

(* ===================================================================== *)
(** ** Profiling *)
(* ===================================================================== *)

(** What a profiled call did, in order; an execution of the code is
    entered with the exception it raised, if any. *)
Inductive prof_event : Type :=
| PfSetup (text : string)
| PfCompile (code : string)
| PfExec (code : string) (raised : option exn).

Section Profiler.

Context (R : Runtime).

(** The statistics object of [pstats], obtained from what the profiler
    saw. *)
Context (Stats : Type) (sorted_stats : list prof_event -> Stats).

(** [compile(code, '<f>', 'exec')]: the exception raised, if any. *)
Context (compile_ : string -> option exn).

(** The body of [f]: [for i in xrange(ncalls): exec code in ns], [n] being
    the number of passes left. *)
Fixpoint exec_loop (code : string) (n : nat) (env : Env R)
    : option exn * Env R * list prof_event :=
  match n with
  | O => (None, env, [])
  | S n' =>
      let '(r, env') := exec_ R code env in
      match r with
      | Some e => (Some e, env', [PfExec code (Some e)])
      | None =>
          let '(r', env'', evs) := exec_loop code n' env' in
          (r', env'', PfExec code None :: evs)
      end
  end.

(** [Benchmark.profile(ncalls)]: the outcome, the namespace afterwards and
    what was done. *)
Definition profile (self : Benchmark) (ncalls : Z)
    : outcome Stats * Env R * list prof_event :=
  let '(r, ns1) := exec_ R (setup self) (globals_copy R) in
  match r with
  | Some e => (Raise e, ns1, [PfSetup (setup self)])
  | None =>
      let j := [PfSetup (setup self); PfCompile (code self)] in
      match compile_ (code self) with
      | Some e => (Raise e, ns1, j)
      | None =>
          let '(r', ns2, evs) := exec_loop (code self) (Z.to_nat ncalls) ns1 in
          match r' with
          | Some e => (Raise e, ns2, j ++ evs)
          | None => (Return (sorted_stats (j ++ evs)), ns2, j ++ evs)
          end
      end
  end.

End Profiler.

Arguments exec_loop {R} code n env.
Arguments profile {R Stats} sorted_stats compile_ self ncalls.

(** A profiler for the toy runtime: every text but ["("] compiles, and the
    statistics are the number of executions seen. *)
Definition toy_compile (code : string) : option exn :=
  if String.eqb code "(" then Some (Exn "SyntaxError" "invalid syntax" EmptyString)
  else None.

Definition toy_stats (j : list prof_event) : nat :=
  length (List.filter (fun ev => match ev with PfExec _ _ => true | _ => false end) j).

Definition toy_profile (self : Benchmark) (ncalls : Z)
    : outcome nat * toy_env * list prof_event :=
  @profile two_seconds nat toy_stats toy_compile self ncalls.

(** A computation that times at most [k] trials, whatever its outcome. *)
Definition trials_within {R : Runtime} {A : Type} (k : nat) (c : M R A) : Prop :=
  forall s o s', c s = (o, s') ->
    (length (timed_counts (journal s')) <= length (timed_counts (journal s)) + k)%nat.

(** The count of the first timed trial of a measurement. *)
Definition first_count (ncalls : option Z) : Z :=
  match ncalls with Some n => n | None => 1 end.

(** A benchmark whose code does not compile. *)
Definition uncompilable : Benchmark := bench "(" "x = 1" "del x" None.

(** Three trials reading 5, 2 and 8 seconds timed for a count of -4. *)
Definition negative_count : M (toy 0 [5; 2; 8]%Q) (gmap string pyval) :=
  magic_timeit "pass" (Some (-4)) 3 false.

Definition isinstance_BenchmarkSuite (v : pyobj) : bool :=
  match v with OSuite _ => true | _ => false end.

(** A namespace none of whose suites holds a suite. *)
Definition no_nested_suite (ns : list (string * pyobj)) : Prop :=
  forall elems, In (OSuite elems) (map snd ns) ->
    Forall (fun v => isinstance_BenchmarkSuite v = false) elems.

(** A namespace with two suites, neither nested. *)
Definition ns_flat : list (string * pyobj) :=
  [ ("first", OSuite [OBenchmark bench_a; OStr "note"; OBenchmark bench_b]);
    ("n", OInt 3);
    ("second", OSuite [OBenchmark bench_c; OBenchmark bench_a]);
    ("single", OBenchmark bench_b) ]%string.

(** Lines 246-254 and [magic_timeit] with [math.floor(math.log10(best))]
    left to the platform: [flog best] is the integer it gives for [best].
    A [log10] that rounds can give the next decade just below a power of
    ten; [floor_log10] is the instance that never rounds. *)
Definition select_order_by (flog : Q -> Z) (force_ms : bool) (best : Q) : Z :=
  if force_ms then 1
  else if Qltb 0 best && Qltb best 1000 then
    Z.min (- (flog best / 3)) 3
  else if Qle_bool 1000 best then 0
  else 3.

Definition magic_timeit_by {R : Runtime} (flog : Q -> Z) (stmt : string)
    (ncalls : option Z) (repeat : Z) (force_ms : bool)
    : M R (gmap string pyval) :=
  record (EvDefineInner stmt) ;;;
  in_ns (define_inner R stmt) ;;;
  number <- choose_number stmt ncalls ;;
  trials <- Timer_repeat stmt repeat number ;;
  m <- lift (py_min trials) ;;
  best <- lift (py_div m number) ;;
  let order := select_order_by flog force_ms best in
  factor <- lift (py_getitem scaling order) ;;
  unit_ <- lift (py_getitem units order) ;;
  ret (<["loops" := PyInt number]>
       (<["repeat" := PyInt repeat]>
        (<["timing" := PyFloat (best * factor)]>
         (<["units" := PyStr unit_]> ∅)))).

(** A timed trial that raised. *)
Definition raised_trial (ev : event) : bool :=
  match ev with EvTimeit _ _ (Raise _) => true | _ => false end.

(* ===================================================================== *)
(** * Properties *)
(* ===================================================================== *)

(** ** The MD5 embedding agrees with the reference digests *)

Example md5_empty : MD5.hexdigest "" = "d41d8cd98f00b204e9800998ecf8427e"%string.
Proof. vm_compute. reflexivity. Qed.

Example md5_abc : MD5.hexdigest "abc" = "900150983cd24fb0d6963f7d28e17f72"%string.
Proof. vm_compute. reflexivity. Qed.

Example md5_fox :
  MD5.hexdigest "The quick brown fox jumps over the lazy dog"
  = "9e107d9d372bb6826bd81d3542a419d6"%string.
Proof. vm_compute. reflexivity. Qed.

Example md5_two_blocks :
  MD5.hexdigest (string_of_list_ascii (List.repeat "a"%char 120))
  = "5f61c0ccad4cac44c75ff505e1f1e537"%string.
Proof. vm_compute. reflexivity. Qed.

Example md5_56 :
  MD5.hexdigest (string_of_list_ascii (List.repeat "a"%char 56))
  = "3b0c8ac703f828b04c6c197006d17218"%string.
Proof. vm_compute. reflexivity. Qed.

(** ** Decades of a positive rational and the unit chosen *)

Lemma pow10_pos (k : Z) : 0 <= k -> 0 < 10 ^ k.
Proof. intros. apply Z.pow_pos_nonneg; lia. Qed.

Lemma pow10_succ (k : Z) : 0 <= k -> 10 ^ (k + 1) = 10 * 10 ^ k.
Proof. intros. rewrite Z.pow_add_r by lia. lia. Qed.

Lemma log10_up_spec (fuel : nat) : forall n d,
  0 < d -> d <= n -> n < d * 10 ^ Z.of_nat fuel ->
  0 <= log10_up fuel n d
  /\ d * 10 ^ log10_up fuel n d <= n < d * 10 ^ (log10_up fuel n d + 1).
Proof.
  induction fuel as [| f IH]; intros n d Hd Hle Hlt.
  - simpl in Hlt. lia.
  - cbn [log10_up]. destruct (Z.leb_spec (d * 10) n) as [H10 | H10].
    + assert (Hf : n < d * 10 * 10 ^ Z.of_nat f).
      { rewrite Nat2Z.inj_succ, <- Z.add_1_r, pow10_succ in Hlt by lia. lia. }
      destruct (IH n (d * 10) ltac:(lia) H10 Hf) as [Hk [Hlo Hhi]].
      set (k := log10_up f n (d * 10)) in *.
      split; [lia |].
      replace (1 + k) with (k + 1) by lia.
      rewrite (pow10_succ (k + 1)) by lia. rewrite (pow10_succ k) by lia.
      rewrite (pow10_succ k) in Hhi by lia. lia.
    + split; [lia |]. simpl. lia.
Qed.

Lemma log10_down_spec (fuel : nat) : forall n d,
  0 < n -> n < d -> d <= n * 10 ^ Z.of_nat fuel ->
  1 <= log10_down fuel n d
  /\ n * 10 ^ (log10_down fuel n d - 1) < d <= n * 10 ^ log10_down fuel n d.
Proof.
  induction fuel as [| f IH]; intros n d Hn Hlt Hle.
  - simpl in Hle. lia.
  - cbn [log10_down]. destruct (Z.leb_spec d (n * 10)) as [H10 | H10].
    + split; [lia |]. simpl. lia.
    + assert (Hf : d <= n * 10 * 10 ^ Z.of_nat f).
      { rewrite Nat2Z.inj_succ, <- Z.add_1_r, pow10_succ in Hle by lia. lia. }
      destruct (IH (n * 10) d ltac:(lia) H10 Hf) as [Hk [Hlo Hhi]].
      set (k := log10_down f (n * 10) d) in *.
      split; [lia |].
      replace (1 + k - 1) with ((k - 1) + 1) by lia.
      replace (1 + k) with (k + 1) by lia.
      rewrite (pow10_succ (k - 1)) by lia. rewrite (pow10_succ k) by lia. lia.
Qed.

Lemma pow10_fuel (x : Z) : 0 < x -> x < 10 ^ Z.of_nat (S (Z.to_nat (Z.log2 x))).
Proof.
  intros Hx.
  pose proof (Z.log2_nonneg x) as Hl.
  rewrite Nat2Z.inj_succ, Z2Nat.id by lia.
  destruct (Z.log2_spec x Hx) as [_ Hhi].
  assert (2 ^ Z.succ (Z.log2 x) <= 10 ^ Z.succ (Z.log2 x)).
  { apply Z.pow_le_mono_l. lia. }
  lia.
Qed.

(** The decade computed by [floor_log10], on numerator and denominator. *)
Lemma floor_log10_spec (q : Q) :
  (0 < q)%Q ->
  let n := Qnum q in
  let d := Z.pos (Qden q) in
  let k := floor_log10 q in
  (0 <= k /\ d * 10 ^ k <= n < d * 10 ^ (k + 1))
  \/ (k < 0 /\ n * 10 ^ (- k - 1) < d <= n * 10 ^ (- k)).
Proof.
  intros Hq n d k.
  assert (Hn : 0 < n). { unfold Qlt in Hq. simpl in Hq. subst n. lia. }
  assert (Hd : 0 < d) by (subst d; lia).
  subst k. unfold floor_log10. fold n. fold d.
  destruct (Z.leb_spec d n) as [Hle | Hlt].
  - left. apply log10_up_spec; try lia.
    pose proof (pow10_fuel n Hn). nia.
  - right.
    pose proof (pow10_fuel d Hd) as Hf.
    destruct (log10_down_spec (S (Z.to_nat (Z.log2 d))) n d Hn Hlt ltac:(nia))
      as [Hk Hb].
    split; [lia |].
    replace (- - log10_down (S (Z.to_nat (Z.log2 d))) n d)
      with (log10_down (S (Z.to_nat (Z.log2 d))) n d) by lia.
    exact Hb.
Qed.

Lemma pow10_mono (a b : Z) : 0 <= a <= b -> 10 ^ a <= 10 ^ b.
Proof. intros. apply Z.pow_le_mono_r; lia. Qed.

Section Decade.
Variable q : Q.
Hypothesis Hq : (0 < q)%Q.

Local Abbreviation n := (Qnum q).
Local Abbreviation d := (Z.pos (Qden q)).

Lemma decade_num_pos : 0 < n.
Proof. unfold Qlt in Hq. simpl in Hq. lia. Qed.

Lemma floor_log10_lt (m : Z) : 0 <= m -> n < d * 10 ^ m -> floor_log10 q < m.
Proof.
  intros Hm Hlt.
  destruct (floor_log10_spec q Hq) as [[Hk [Hlo _]] | [Hk _]]; [| lia].
  destruct (Z_lt_le_dec (floor_log10 q) m) as [|Hge]; [assumption | exfalso].
  pose proof (pow10_mono m (floor_log10 q) ltac:(lia)). nia.
Qed.

Lemma floor_log10_ge (m : Z) : 0 <= m -> d * 10 ^ m <= n -> m <= floor_log10 q.
Proof.
  intros Hm Hle.
  pose proof (pow10_pos m Hm) as Hpm.
  destruct (floor_log10_spec q Hq) as [[Hk [_ Hhi]] | [Hk [Hlo _]]].
  - destruct (Z_le_gt_dec m (floor_log10 q)) as [|Hgt]; [assumption | exfalso].
    pose proof (pow10_mono (floor_log10 q + 1) m ltac:(lia)). nia.
  - exfalso. pose proof (pow10_pos (- floor_log10 q - 1) ltac:(lia)). nia.
Qed.

Lemma floor_log10_ge_neg (m : Z) : 0 < m -> d <= n * 10 ^ m -> - m <= floor_log10 q.
Proof.
  intros Hm Hle. pose proof decade_num_pos as Hn.
  destruct (floor_log10_spec q Hq) as [[Hk _] | [Hk [Hlo _]]]; [lia |].
  destruct (Z_le_gt_dec (- m) (floor_log10 q)) as [|Hgt]; [assumption | exfalso].
  pose proof (pow10_mono m (- floor_log10 q - 1) ltac:(lia)). nia.
Qed.

Lemma floor_log10_lt_neg (m : Z) : 0 <= m -> n * 10 ^ m < d -> floor_log10 q < - m.
Proof.
  intros Hm Hlt. pose proof decade_num_pos as Hn.
  pose proof (pow10_pos m Hm) as Hpm.
  destruct (floor_log10_spec q Hq) as [[Hk [Hlo _]] | [Hk [_ Hhi]]].
  - exfalso. pose proof (pow10_pos (floor_log10 q) Hk). nia.
  - destruct (Z_lt_le_dec (floor_log10 q) (- m)) as [|Hge]; [assumption | exfalso].
    pose proof (pow10_mono (- floor_log10 q) m ltac:(lia)). nia.
Qed.
End Decade.

Lemma Qltb_lt (x y : Q) : Qltb x y = true <-> (x < y)%Q.
Proof.
  unfold Qltb. rewrite negb_true_iff.
  split.
  - intros H. apply Qnot_le_lt. intros Hle. apply Qle_bool_iff in Hle. congruence.
  - intros H. destruct (Qle_bool y x) eqn:E; [| reflexivity].
    apply Qle_bool_iff in E. exfalso. exact (Qlt_not_le _ _ H E).
Qed.

Lemma Qle_bool_false (x y : Q) : Qle_bool x y = false <-> (y < x)%Q.
Proof.
  rewrite <- Qltb_lt. unfold Qltb. destruct (Qle_bool x y); simpl; split; congruence.
Qed.

(** The unit chosen without [force_ms], band by band, for the decade that
    never rounds. *)
Lemma select_order_adaptive (best : Q) :
  ((1000 <= best)%Q -> select_order false best = 0)
  /\ ((1 <= best)%Q -> (best < 1000)%Q -> select_order false best = 0)
  /\ ((1 # 1000 <= best)%Q -> (best < 1)%Q -> select_order false best = 1)
  /\ ((1 # 1000000 <= best)%Q -> (best < 1 # 1000)%Q -> select_order false best = 2)
  /\ ((0 < best)%Q -> (best < 1 # 1000000)%Q -> select_order false best = 3)
  /\ ((best <= 0)%Q -> select_order false best = 3).
Proof.
  unfold select_order.
  repeat split.
  - intros H. assert (Hn : Qltb best 1000 = false).
    { apply not_true_iff_false. rewrite Qltb_lt. now apply Qle_not_lt. }
    rewrite Hn, andb_false_r. apply Qle_bool_iff in H. now rewrite H.
  - intros Hlo Hhi.
    assert (Hpos : (0 < best)%Q) by (eapply Qlt_le_trans; [| exact Hlo]; reflexivity).
    rewrite (proj2 (Qltb_lt 0 best) Hpos), (proj2 (Qltb_lt best 1000) Hhi). simpl.
    pose proof (floor_log10_lt best Hpos 3 ltac:(lia)) as H1.
    pose proof (floor_log10_ge best Hpos 0 ltac:(lia)) as H2.
    unfold Qle, Qlt in Hlo, Hhi. simpl in Hlo, Hhi.
    specialize (H1 ltac:(simpl; lia)). specialize (H2 ltac:(simpl; lia)).
    assert (floor_log10 best / 3 = 0) by (apply Z.div_small; lia). lia.
  - intros Hlo Hhi.
    assert (Hpos : (0 < best)%Q) by (eapply Qlt_le_trans; [| exact Hlo]; reflexivity).
    assert (Hk : (best < 1000)%Q) by (eapply Qlt_trans; [exact Hhi | reflexivity]).
    rewrite (proj2 (Qltb_lt 0 best) Hpos), (proj2 (Qltb_lt best 1000) Hk). simpl.
    pose proof (floor_log10_lt_neg best Hpos 0 ltac:(lia)) as H1.
    pose proof (floor_log10_ge_neg best Hpos 3 ltac:(lia)) as H2.
    unfold Qle, Qlt in Hlo, Hhi. simpl in Hlo, Hhi.
    specialize (H1 ltac:(simpl; lia)). specialize (H2 ltac:(simpl; lia)).
    assert (floor_log10 best / 3 = -1).
    { symmetry. apply (Z.div_unique _ 3 (-1) (floor_log10 best + 3)); lia. }
    lia.
  - intros Hlo Hhi.
    assert (Hpos : (0 < best)%Q) by (eapply Qlt_le_trans; [| exact Hlo]; reflexivity).
    assert (Hk : (best < 1000)%Q) by (eapply Qlt_trans; [exact Hhi | reflexivity]).
    rewrite (proj2 (Qltb_lt 0 best) Hpos), (proj2 (Qltb_lt best 1000) Hk). simpl.
    pose proof (floor_log10_lt_neg best Hpos 3 ltac:(lia)) as H1.
    pose proof (floor_log10_ge_neg best Hpos 6 ltac:(lia)) as H2.
    unfold Qle, Qlt in Hlo, Hhi. simpl in Hlo, Hhi.
    specialize (H1 ltac:(simpl; lia)). specialize (H2 ltac:(simpl; lia)).
    assert (floor_log10 best / 3 = -2).
    { symmetry. apply (Z.div_unique _ 3 (-2) (floor_log10 best + 6)); lia. }
    lia.
  - intros Hpos Hhi.
    assert (Hk : (best < 1000)%Q) by (eapply Qlt_trans; [exact Hhi | reflexivity]).
    rewrite (proj2 (Qltb_lt 0 best) Hpos), (proj2 (Qltb_lt best 1000) Hk). simpl.
    pose proof (floor_log10_lt_neg best Hpos 6 ltac:(lia)) as H1.
    unfold Qlt in Hhi. simpl in Hhi.
    specialize (H1 ltac:(simpl; lia)).
    assert (floor_log10 best / 3 < -2).
    { apply Z.div_lt_upper_bound; lia. }
    lia.
  - intros H.
    assert (Hn : Qltb 0 best = false).
    { apply not_true_iff_false. rewrite Qltb_lt. now apply Qle_not_lt. }
    rewrite Hn. simpl.
    assert (Hm : Qle_bool 1000 best = false).
    { apply Qle_bool_false. eapply Qle_lt_trans; [exact H | reflexivity]. }
    now rewrite Hm.
Qed.

(** ** Benchmark identity *)

(** C1, as stated, fails: the fingerprint hashes the concatenation
    [setup + code + cleanup], so two definitions whose texts differ but
    concatenate to the same string share a fingerprint, and the "only if"
    half of the equivalence does not hold. *)
Lemma checksum_iff_fails :
  ~ (checksum split_early = checksum split_late
     <-> (setup split_early, code split_early, cleanup split_early)
         = (setup split_late, code split_late, cleanup split_late)).
Proof.
  intros [Hfwd _].
  assert (H : checksum split_early = checksum split_late) by reflexivity.
  apply Hfwd in H. discriminate H.
Qed.

(** C1, amended: two definitions whose [setup], [code] and [cleanup] texts
    concatenate, in that order, to the same string (in particular two
    definitions with equal texts) have the same fingerprint, whatever their
    name, description, iteration count and other metadata. *)
Theorem checksum_same_text (d1 d2 : Benchmark) :
  (setup d1 ++ code d1 ++ cleanup d1)%string
  = (setup d2 ++ code d2 ++ cleanup d2)%string ->
  checksum d1 = checksum d2.
Proof.
  unfold checksum. intros Heq. now rewrite Heq.
Qed.

Lemma checksum_same_text_witness :
  name plain <> name decorated /\ ncalls plain <> ncalls decorated
  /\ checksum plain = checksum decorated.
Proof.
  split; [discriminate |].
  split; [discriminate |].
  apply (checksum_same_text plain decorated). reflexivity.
Defined.

(** ** Discovery *)

Lemma gather_fold_app (vs : list pyobj) (acc : list pyobj) :
  fold_left
    (fun acc v =>
       match v with
       | OBenchmark _ => acc ++ [v]
       | OSuite elems => acc ++ benchmarks elems
       | _ => acc
       end) vs acc
  = acc ++ flat_map contribution vs.
Proof.
  revert acc. induction vs as [| v vs IH]; intros acc; simpl.
  - now rewrite app_nil_r.
  - rewrite IH. destruct v; simpl; unfold benchmarks;
      rewrite <- ?app_assoc; simpl; reflexivity.
Qed.

Lemma contribution_benchmarks (v : pyobj) :
  Forall (fun o => isinstance_Benchmark o = true) (contribution v).
Proof.
  destruct v; simpl; try constructor; try constructor; auto.
  apply List.Forall_forall. intros o Ho. apply List.filter_In in Ho. tauto.
Qed.

(** C5, as stated, fails: a suite nested in a suite is not entered, so the
    example namespace yields two benchmarks, not three, and not what the
    recursive flattening yields. *)
Lemma gather_example_not_three :
  gather_benchmarks ns_example = [OBenchmark bench_a; OBenchmark bench_b]
  /\ length (gather_benchmarks ns_example) <> 3%nat
  /\ gather_benchmarks ns_example <> flatten_spec ns_example.
Proof.
  split; [reflexivity |].
  split; [discriminate |].
  discriminate.
Qed.

(** C5, amended: [gather_benchmarks] returns, in traversal order, the
    values that are benchmarks and, for each value that is a suite, the
    members of that suite that are themselves benchmarks; the other members
    of a suite (nested suites included) and all other values are dropped,
    nothing is deduplicated, and everything returned is a benchmark. *)
Theorem gather_benchmarks_direct (ns : list (string * pyobj)) :
  gather_benchmarks ns = flat_map contribution (map snd ns)
  /\ Forall (fun o => isinstance_Benchmark o = true) (gather_benchmarks ns).
Proof.
  assert (H : gather_benchmarks ns = flat_map contribution (map snd ns)).
  { unfold gather_benchmarks. now rewrite gather_fold_app. }
  split; [exact H |].
  rewrite H. apply List.Forall_forall. intros o Ho.
  apply List.in_flat_map in Ho. destruct Ho as [v [_ Hv]].
  pose proof (contribution_benchmarks v) as Hall.
  rewrite List.Forall_forall in Hall. now apply Hall.
Qed.

(** ** Builtins, trials and calibration *)

(** ** [min] *)

Lemma min_from_le_init (l : list Q) : forall m, (min_from m l <= m)%Q.
Proof.
  induction l as [| x l IH]; intros m; simpl.
  - apply Qle_refl.
  - destruct (Qltb x m) eqn:E.
    + apply Qltb_lt in E. eapply Qle_trans; [apply IH |]. now apply Qlt_le_weak.
    + apply IH.
Qed.

Lemma min_from_lower (l : list Q) : forall m t, In t l -> (min_from m l <= t)%Q.
Proof.
  induction l as [| x l IH]; intros m t Hin; simpl in *; [contradiction |].
  destruct Hin as [-> | Hin]; [| now apply IH].
  eapply Qle_trans; [apply min_from_le_init |].
  destruct (Qltb t m) eqn:E; [apply Qle_refl |].
  unfold Qltb in E. apply negb_false_iff in E. now apply Qle_bool_iff in E.
Qed.

Lemma min_from_in (l : list Q) : forall m, min_from m l = m \/ In (min_from m l) l.
Proof.
  induction l as [| x l IH]; intros m; simpl; [now left |].
  destruct (IH (if Qltb x m then x else m)) as [H | H]; [| now right; right].
  rewrite H. destruct (Qltb x m); [right; now left | now left].
Qed.

(** [min] returns a member of the list that is below every member. *)
Lemma py_min_spec (l : list Q) (m : Q) :
  py_min l = Return m -> In m l /\ (forall t, In t l -> (m <= t)%Q).
Proof.
  destruct l as [| x l]; simpl; [discriminate |].
  intros [= <-]. split.
  - destruct (min_from_in l x) as [H | H]; [left; now rewrite H | now right].
  - intros t [<- | Hin]; [apply min_from_le_init | now apply min_from_lower].
Qed.

Lemma py_min_nonempty (l : list Q) : l <> [] -> exists m, py_min l = Return m.
Proof. destruct l; [congruence | simpl; eauto]. Qed.

(** ** The unit table *)

Lemma select_order_range (force_ms : bool) (best : Q) :
  0 <= select_order force_ms best <= 3.
Proof.
  unfold select_order. destruct force_ms; [lia |].
  destruct (Qltb 0 best) eqn:E0; simpl.
  - destruct (Qltb best 1000) eqn:E1.
    + apply Qltb_lt in E0, E1.
      pose proof (floor_log10_lt best E0 3 ltac:(lia)) as H.
      unfold Qlt in E1. simpl in E1. specialize (H ltac:(simpl; lia)).
      assert (floor_log10 best / 3 < 1) by (apply Z.div_lt_upper_bound; lia).
      lia.
    + destruct (Qle_bool 1000 best); lia.
  - destruct (Qle_bool 1000 best); lia.
Qed.

Lemma unit_table (order : Z) :
  0 <= order <= 3 ->
  (order = 0 /\ py_getitem scaling order = Return 1%Q
   /\ py_getitem units order = Return "s"%string)
  \/ (order = 1 /\ py_getitem scaling order = Return 1000%Q
      /\ py_getitem units order = Return "ms"%string)
  \/ (order = 2 /\ py_getitem scaling order = Return 1000000%Q
      /\ py_getitem units order = Return "us"%string)
  \/ (order = 3 /\ py_getitem scaling order = Return 1000000000%Q
      /\ py_getitem units order = Return "ns"%string).
Proof.
  intros H.
  assert (Hc : order = 0 \/ order = 1 \/ order = 2 \/ order = 3) by lia.
  destruct Hc as [-> | [-> | [-> | ->]]]; [left | right; left | right; right; left | right; right; right];
    repeat split; reflexivity.
Qed.

Section TrialFacts.

Context {R : Runtime}.

(** ** Trials *)

Lemma timeit_eq (stmt : string) (number : Z) (s : state R) :
  timeit stmt number s
  = (fst (timeit_ R stmt number (ns s)),
     mkState (snd (timeit_ R stmt number (ns s)))
       (journal s ++ [EvTimeit stmt number (fst (timeit_ R stmt number (ns s)))])).
Proof. unfold timeit. now destruct (timeit_ R stmt number (ns s)). Qed.

Lemma repeat_trials_inv (stmt : string) (number : Z) (n : nat) :
  forall (s s' : state R) (ts : list Q),
    Timer_repeat stmt (Z.of_nat n) number s = (Return ts, s') ->
    journal s' = journal s ++ map (fun t => EvTimeit stmt number (Return t)) ts
    /\ length ts = n.
Proof.
  unfold Timer_repeat. rewrite Nat2Z.id.
  induction n as [| n IH]; intros s s' ts H; simpl in H.
  - inversion H; subst. simpl. now rewrite app_nil_r.
  - unfold bind in H. rewrite timeit_eq in H.
    destruct (timeit_ R stmt number (ns s)) as [[t | e] ns1]; simpl in H;
      [| discriminate].
    destruct (repeat_trials R stmt n number _) as [[r | e] s1] eqn:E;
      [| discriminate].
    inversion H; subst. apply IH in E. destruct E as [Hj Hl].
    simpl in Hj. rewrite Hj, <- app_assoc. simpl. split; [reflexivity | lia].
Qed.

Lemma Timer_repeat_inv (stmt : string) (rep number : Z) (s s' : state R)
    (ts : list Q) :
  Timer_repeat stmt rep number s = (Return ts, s') ->
  journal s' = journal s ++ map (fun t => EvTimeit stmt number (Return t)) ts
  /\ length ts = Z.to_nat rep.
Proof.
  intros H. apply repeat_trials_inv.
  unfold Timer_repeat in *. now rewrite Nat2Z.id.
Qed.

(** ** Calibration *)

Lemma pow10_shift (c : Z) (k : nat) :
  c * 10 * 10 ^ Z.of_nat k = c * 10 ^ Z.of_nat (S k).
Proof. rewrite Nat2Z.inj_succ, Z.pow_succ_r by lia. lia. Qed.

Lemma calibrate_inv (stmt : string) (iters : list Z) :
  forall (c : Z) (s s' : state R) (n : Z),
    calibrate stmt iters c s = (Return n, s') ->
    exists below : list Q,
      Forall (fun t => (t < 1 # 10)%Q) below
      /\ ((exists t, (1 # 10 <= t)%Q
                     /\ (length below < length iters)%nat
                     /\ journal s' = journal s ++ attempts stmt c (below ++ [t])
                     /\ n = c * 10 ^ Z.of_nat (length below))
          \/ (length below = length iters
              /\ journal s' = journal s ++ attempts stmt c below
              /\ n = c * 10 ^ Z.of_nat (length iters))).
Proof.
  induction iters as [| i iters IH]; intros c s s' n H; simpl in H.
  - inversion H; subst. exists []. split; [constructor |]. right.
    simpl. rewrite app_nil_r. repeat split; lia.
  - unfold bind in H. rewrite timeit_eq in H.
    destruct (timeit_ R stmt c (ns s)) as [[t | e] ns1]; simpl in H;
      [| discriminate].
    destruct (Qle_bool (1 # 10) t) eqn:E.
    + inversion H; subst. exists []. split; [constructor |]. left.
      exists t. apply Qle_bool_iff in E. simpl. repeat split; auto; lia.
    + apply IH in H. destruct H as [below [Hall Hcases]].
      apply Qle_bool_false in E.
      exists (t :: below). split; [now constructor |].
      simpl in Hcases.
      destruct Hcases as [[t' [Ht' [Hlen [Hj Hn]]]] | [Hlen [Hj Hn]]].
      * left. exists t'. simpl. rewrite Hj, <- app_assoc. simpl.
        repeat split; auto; [lia |].
        rewrite Hn. apply pow10_shift.
      * right. simpl. rewrite Hj, <- app_assoc. simpl.
        repeat split; auto.
        rewrite Hn. apply pow10_shift.
Qed.

End TrialFacts.

(** ** What the timer enters in the journal and returns *)

Section JournalFacts.

Context {R : Runtime}.

Lemma timing_only_ret {A : Type} (a : A) : timing_only (@ret R A a).
Proof.
  intros s o s' H. inversion H; subst. exists []. rewrite app_nil_r. auto.
Qed.

Lemma timing_only_lift {A : Type} (o : outcome A) : timing_only (@lift R A o).
Proof.
  intros s o' s' H. inversion H; subst. exists []. rewrite app_nil_r. auto.
Qed.

Lemma timing_only_bind {A B : Type} (c : M R A) (k : A -> M R B) :
  timing_only c -> (forall a, timing_only (k a)) -> timing_only (bind c k).
Proof.
  intros Hc Hk s o s' H. unfold bind in H.
  destruct (c s) as [[a | e] s1] eqn:E.
  - destruct (Hc _ _ _ E) as [evs1 [H1 F1]].
    destruct (Hk a _ _ _ H) as [evs2 [H2 F2]].
    exists (evs1 ++ evs2). rewrite H2, H1, app_assoc. split; [reflexivity |].
    apply Forall_app. auto.
  - inversion H; subst. exact (Hc _ _ _ E).
Qed.

Lemma timing_only_record (ev : event) :
  is_timing ev = true -> timing_only (@record R ev).
Proof.
  intros Hev s o s' H. inversion H; subst. exists [ev]. simpl. auto.
Qed.

Lemma timing_only_in_ns (f : Env R -> option exn * Env R) :
  timing_only (in_ns f).
Proof.
  intros s o s' H. unfold in_ns in H. destruct (f (ns s)) as [r ns1].
  inversion H; subst. exists []. simpl. rewrite app_nil_r. auto.
Qed.

Lemma timing_only_timeit (stmt : string) (number : Z) :
  timing_only (@timeit R stmt number).
Proof.
  intros s o s' H. rewrite timeit_eq in H. inversion H; subst.
  eexists. simpl. split; [reflexivity |]. repeat constructor.
Qed.

Lemma timing_only_repeat_trials (stmt : string) (number : Z) (n : nat) :
  timing_only (repeat_trials R stmt n number).
Proof.
  induction n as [| n IH]; simpl.
  - apply timing_only_ret.
  - apply timing_only_bind; [apply timing_only_timeit |]. intros t.
    apply timing_only_bind; [exact IH |]. intros r. apply timing_only_ret.
Qed.

Lemma timing_only_calibrate (stmt : string) (iters : list Z) :
  forall c, timing_only (@calibrate R stmt iters c).
Proof.
  induction iters as [| i iters IH]; intros c; simpl.
  - apply timing_only_ret.
  - apply timing_only_bind; [apply timing_only_timeit |]. intros t.
    destruct (Qle_bool (1 # 10) t); [apply timing_only_ret | apply IH].
Qed.

(** [magic_timeit] enters only timing events in the journal. *)
Lemma timing_only_magic_timeit (stmt : string) (ncalls : option Z)
    (rep : Z) (force_ms : bool) :
  timing_only (@magic_timeit R stmt ncalls rep force_ms).
Proof.
  unfold magic_timeit.
  apply timing_only_bind; [now apply timing_only_record |]. intros _.
  apply timing_only_bind; [apply timing_only_in_ns |]. intros _.
  apply timing_only_bind.
  { unfold choose_number. destruct ncalls; [apply timing_only_ret | apply timing_only_calibrate]. }
  intros number.
  apply timing_only_bind; [apply timing_only_repeat_trials |]. intros trials.
  apply timing_only_bind; [apply timing_only_lift |]. intros m.
  apply timing_only_bind; [apply timing_only_lift |]. intros best.
  apply timing_only_bind; [apply timing_only_lift |]. intros factor.
  apply timing_only_bind; [apply timing_only_lift |]. intros unit_.
  apply timing_only_ret.
Qed.

Lemma count_cleanups_app (j1 j2 : list event) :
  count_cleanups (j1 ++ j2) = (count_cleanups j1 + count_cleanups j2)%nat.
Proof. unfold count_cleanups. now rewrite List.filter_app, length_app. Qed.

Lemma count_cleanups_timing (evs : list event) :
  Forall (fun ev => is_timing ev = true) evs -> count_cleanups evs = 0%nat.
Proof.
  induction 1 as [| ev evs Hev _ IH]; [reflexivity |].
  unfold count_cleanups in *. simpl.
  destruct ev; simpl in *; try discriminate; exact IH.
Qed.

(** ** What a returned measurement is made of *)

Lemma magic_timeit_inv (stmt : string) (ncalls : option Z) (rep : Z)
    (force_ms : bool) (s s' : state R) (r : gmap string pyval) :
  magic_timeit stmt ncalls rep force_ms s = (Return r, s') ->
  exists ns1 number s2 trials m factor unit_,
    define_inner R stmt (ns s) = (None, ns1)
    /\ choose_number stmt ncalls
         (mkState ns1 (journal s ++ [EvDefineInner stmt])) = (Return number, s2)
    /\ Timer_repeat stmt rep number s2 = (Return trials, s')
    /\ py_min trials = Return m
    /\ number <> 0
    /\ py_getitem scaling (select_order force_ms (m / inject_Z number)) = Return factor
    /\ py_getitem units (select_order force_ms (m / inject_Z number)) = Return unit_
    /\ r = report number rep (m / inject_Z number) factor unit_.
Proof.
  unfold magic_timeit, bind, record, in_ns, lift, ret. simpl.
  destruct (define_inner R stmt (ns s)) as [[e |] ns1]; [discriminate |].
  destruct (choose_number stmt ncalls _) as [[number | e] s2] eqn:Ec;
    [| discriminate].
  destruct (Timer_repeat stmt rep number s2) as [[trials | e] s3] eqn:Et;
    [| discriminate].
  destruct (py_min trials) as [m | e] eqn:Em; [| discriminate].
  unfold py_div. destruct (Z.eqb_spec number 0) as [| Hn]; [discriminate |].
  destruct (py_getitem scaling _) as [factor | e] eqn:Ef; [| discriminate].
  destruct (py_getitem units _) as [unit_ | e] eqn:Eu; [| discriminate].
  intros H. inversion H; subst.
  exists ns1, number, s2, trials, m, factor, unit_. repeat split; auto.
Qed.

Lemma magic_timeit_intro (stmt : string) (ncalls : option Z) (rep : Z)
    (force_ms : bool) (s s2 s3 : state R) (ns1 : Env R) (number : Z)
    (trials : list Q) (m : Q) :
  define_inner R stmt (ns s) = (None, ns1) ->
  choose_number stmt ncalls
    (mkState ns1 (journal s ++ [EvDefineInner stmt])) = (Return number, s2) ->
  Timer_repeat stmt rep number s2 = (Return trials, s3) ->
  py_min trials = Return m ->
  number <> 0 ->
  exists factor unit_,
    py_getitem scaling (select_order force_ms (m / inject_Z number)) = Return factor
    /\ py_getitem units (select_order force_ms (m / inject_Z number)) = Return unit_
    /\ magic_timeit stmt ncalls rep force_ms s
       = (Return (report number rep (m / inject_Z number) factor unit_), s3).
Proof.
  intros Hd Hc Ht Hm Hn.
  pose proof (select_order_range force_ms (m / inject_Z number)) as Hr.
  assert (exists factor unit_,
    py_getitem scaling (select_order force_ms (m / inject_Z number)) = Return factor
    /\ py_getitem units (select_order force_ms (m / inject_Z number)) = Return unit_)
    as [factor [unit_ [Hf Hu]]].
  { destruct (unit_table _ Hr) as [[_ [? ?]] | [[_ [? ?]] | [[_ [? ?]] | [_ [? ?]]]]];
      eauto. }
  exists factor, unit_. repeat split; auto.
  unfold magic_timeit, bind, record, in_ns, lift, ret. simpl.
  rewrite Hd, Hc, Ht, Hm. unfold py_div.
  destruct (Z.eqb_spec number 0); [contradiction |].
  now rewrite Hf, Hu.
Qed.

End JournalFacts.

(** ** The shape of a run *)

Section RunFacts.
Context {R : Runtime}.

Lemma run_setup_fails (b : Benchmark) (s : state R) (e : exn) (ns1 : Env R) :
  exec_ R (setup b) (globals_copy R) = (Some e, ns1) ->
  run b s = (Raise e, mkState ns1 (journal s ++ [EvSetup (setup b)])).
Proof.
  intros H. unfold run, _setup, bind, record, in_ns. simpl. now rewrite H.
Qed.

Lemma run_setup_ok (b : Benchmark) (s s2 : state R) (ns1 ns3 : Env R)
    (o : outcome (gmap string pyval)) (c : option exn) :
  exec_ R (setup b) (globals_copy R) = (None, ns1) ->
  magic_timeit (code b) (ncalls b) (repeat b) true
    (mkState ns1 (journal s ++ [EvSetup (setup b)])) = (o, s2) ->
  exec_ R (cleanup b) (ns s2) = (c, ns3) ->
  run b s
  = (match c with None => Return (run_result o) | Some e => Raise e end,
     mkState ns3 (journal s2 ++ [EvCleanup (cleanup b)])).
Proof.
  intros Hs Hm Hc.
  unfold run, _setup, _cleanup, try_except, bind, record, in_ns, ret. simpl.
  rewrite Hs. simpl.
  rewrite Hm. destruct o as [r | e]; simpl; rewrite Hc; destruct c; reflexivity.
Qed.

Lemma run_inv (b : Benchmark) (s s' : state R) (r : gmap string pyval) :
  run b s = (Return r, s') ->
  exists ns1 o s2,
    exec_ R (setup b) (globals_copy R) = (None, ns1)
    /\ magic_timeit (code b) (ncalls b) (repeat b) true
         (mkState ns1 (journal s ++ [EvSetup (setup b)])) = (o, s2)
    /\ r = run_result o.
Proof.
  intros H.
  destruct (exec_ R (setup b) (globals_copy R)) as [[e |] ns1] eqn:Hs.
  - rewrite (run_setup_fails b s e ns1 Hs) in H. discriminate.
  - destruct (magic_timeit (code b) (ncalls b) (repeat b) true
                (mkState ns1 (journal s ++ [EvSetup (setup b)])))
      as [o s2] eqn:Hm.
    destruct (exec_ R (cleanup b) (ns s2)) as [c ns3] eqn:Hc.
    rewrite (run_setup_ok b s s2 ns1 ns3 o c Hs Hm Hc) in H.
    destruct c; [discriminate |]. inversion H; subst.
    exists ns1, o, s2. auto.
Qed.

Lemma run_all_inv (bs : list Benchmark) :
  forall (s s' : state R) (rs : list (gmap string pyval)),
    run_all bs s = (Return rs, s') ->
    Forall2
      (fun b r =>
         exists (s1 : state R) o s2,
           magic_timeit (code b) (ncalls b) (repeat b) true s1 = (o, s2)
           /\ r = run_result o)
      bs rs.
Proof.
  induction bs as [| b bs IH]; intros s s' rs H; simpl in H.
  - inversion H; subst. constructor.
  - unfold bind in H.
    destruct (run b s) as [[r | e] s1] eqn:Hr; [| discriminate].
    destruct (run_all bs s1) as [[rs' | e] s2] eqn:Hrs; [| discriminate].
    inversion H; subst. constructor; [| eapply IH; eassumption].
    apply run_inv in Hr. destruct Hr as [ns1 [o [s2' [_ [Hm ->]]]]]. eauto.
Qed.

End RunFacts.

Lemma print_exc_nonempty (e : exn) : print_exc e <> ""%string.
Proof. unfold print_exc. simpl. discriminate. Qed.

Lemma failure_record_lookups (e : exn) :
  failure_record e !! "success"%string = Some (PyBool false)
  /\ failure_record e !! "traceback"%string = Some (PyStr (print_exc e))
  /\ failure_record e !! "timing"%string = None
  /\ failure_record e !! "loops"%string = None
  /\ failure_record e !! "units"%string = None.
Proof. unfold failure_record. repeat split; reflexivity. Qed.

Lemma report_lookups (number rep : Z) (best factor : Q) (unit_ : string) :
  report number rep best factor unit_ !! "loops"%string = Some (PyInt number)
  /\ report number rep best factor unit_ !! "repeat"%string = Some (PyInt rep)
  /\ report number rep best factor unit_ !! "timing"%string
     = Some (PyFloat (best * factor))
  /\ report number rep best factor unit_ !! "units"%string = Some (PyStr unit_)
  /\ report number rep best factor unit_ !! "success"%string = None.
Proof. unfold report. repeat split; reflexivity. Qed.

(** ** Calibration *)

Lemma timed_counts_attempts_snoc (stmt : string) (ts : list Q) :
  forall (c : Z) (t : Q),
    timed_counts (attempts stmt c (ts ++ [t]))
    = timed_counts (attempts stmt c ts) ++ [c * 10 ^ Z.of_nat (length ts)].
Proof.
  induction ts as [| x ts IH]; intros c t.
  - simpl. f_equal. lia.
  - cbn [app attempts length]. unfold timed_counts in *. cbn [flat_map app].
    rewrite IH. now rewrite pow10_shift.
Qed.

Lemma last_timed_count (stmt : string) (ts : list Q) (t : Q) :
  List.last (timed_counts (attempts stmt 1 (ts ++ [t]))) 0 = 10 ^ Z.of_nat (length ts).
Proof.
  rewrite timed_counts_attempts_snoc, List.last_last. lia.
Qed.

(** C2, as stated, fails: when no timed count reaches the threshold the
    loop leaves after nine timed attempts, the last of them with 10^8
    iterations, and the count it hands on is 10^9, which calibration never
    timed. *)
Lemma calibration_hands_on_untimed_count :
  let out := @choose_number (toy 0 []) "pass" None (toy_start 0 []) in
  fst out = Return 1000000000
  /\ timed_counts (journal (snd out))
     = [1; 10; 100; 1000; 10000; 100000; 1000000; 10000000; 100000000]
  /\ List.last (timed_counts (journal (snd out))) 0 <> 1000000000
  /\ exists r,
       fst (@magic_timeit (toy 0 []) "pass" None 3 false (toy_start 0 []))
       = Return r
       /\ r !! "loops"%string = Some (PyInt 1000000000).
Proof.
  split; [reflexivity |].
  split; [reflexivity |].
  split; [discriminate |].
  eexists. split; reflexivity.
Qed.

(** C2, amended: without an explicit iteration count, calibration times the
    counts 1, 10, 100, ... in turn, at most nine of them (at most nine timed
    attempts, the last with 10^8 iterations), and stops at the first whose
    trial takes at least 0.1 seconds; that count is the one measured and
    reported.  If none of the nine timed counts reaches the threshold the
    count measured and reported is 10^9, ten times the last timed one. *)
Theorem calibration_by_tens (R : Runtime) (stmt : string) (rep : Z)
    (force_ms : bool) (s s' : state R) (r : gmap string pyval) :
  magic_timeit stmt None rep force_ms s = (Return r, s') ->
  exists (below : list Q) (n : Z) (trials : list Q),
    Forall (fun t => (t < 1 # 10)%Q) below
    /\ r !! "loops"%string = Some (PyInt n)
    /\ ((exists t,
           (1 # 10 <= t)%Q
           /\ (length below <= 8)%nat
           /\ n = 10 ^ Z.of_nat (length below)
           /\ List.last (timed_counts (attempts stmt 1 (below ++ [t]))) 0 = n
           /\ journal s'
              = journal s ++ [EvDefineInner stmt]
                ++ attempts stmt 1 (below ++ [t])
                ++ map (fun t => EvTimeit stmt n (Return t)) trials)
        \/ (length below = 9%nat
            /\ n = 10 ^ 9
            /\ List.last (timed_counts (attempts stmt 1 below)) 0 = 10 ^ 8
            /\ journal s'
               = journal s ++ [EvDefineInner stmt]
                 ++ attempts stmt 1 below
                 ++ map (fun t => EvTimeit stmt n (Return t)) trials)).
Proof.
  intros H.
  apply magic_timeit_inv in H.
  destruct H as (ns1 & n & s2 & trials & m & factor & unit_
                 & Hd & Hc & Ht & Hm & Hn & Hf & Hu & ->).
  unfold choose_number in Hc. apply calibrate_inv in Hc.
  destruct Hc as [below [Hall Hcases]].
  apply Timer_repeat_inv in Ht. destruct Ht as [Hj _].
  exists below, n, trials. split; [exact Hall |].
  split; [apply report_lookups |].
  cbn [journal] in Hcases.
  destruct Hcases as [[t [Ht [Hlen [Hj2 Hn2]]]] | [Hlen [Hj2 Hn2]]].
  - left. exists t. change (length (py_range 1 10)) with 9%nat in Hlen.
    rewrite Z.mul_1_l in Hn2.
    split; [exact Ht |]. split; [lia |]. split; [exact Hn2 |].
    split; [rewrite Hn2; apply last_timed_count |].
    rewrite Hj, Hj2, <- !app_assoc. reflexivity.
  - right. change (length (py_range 1 10)) with 9%nat in Hlen, Hn2.
    split; [exact Hlen |]. split; [rewrite Hn2; reflexivity |].
    split.
    + destruct (exists_last (l := below)) as [below' [t ->]].
      { intros ->. discriminate Hlen. }
      rewrite last_timed_count. rewrite length_app in Hlen. simpl in Hlen.
      replace (length below') with 8%nat by lia. reflexivity.
    + rewrite Hj, Hj2, <- !app_assoc. reflexivity.
Qed.

Lemma calibration_by_tens_witness :
  exists (below : list Q) (n : Z) (trials : list Q),
    Forall (fun t => (t < 1 # 10)%Q) below
    /\ returned slow_measure (toy_start (1 # 20) []) !! "loops"%string
       = Some (PyInt n)
    /\ ((exists t,
           (1 # 10 <= t)%Q
           /\ (length below <= 8)%nat
           /\ n = 10 ^ Z.of_nat (length below)
           /\ List.last (timed_counts (attempts "pass" 1 (below ++ [t]))) 0 = n
           /\ journal (snd (slow_measure (toy_start (1 # 20) [])))
              = journal (toy_start (1 # 20) []) ++ [EvDefineInner "pass"]
                ++ attempts "pass" 1 (below ++ [t])
                ++ map (fun t => EvTimeit "pass" n (Return t)) trials)
        \/ (length below = 9%nat
            /\ n = 10 ^ 9
            /\ List.last (timed_counts (attempts "pass" 1 below)) 0 = 10 ^ 8
            /\ journal (snd (slow_measure (toy_start (1 # 20) [])))
               = journal (toy_start (1 # 20) []) ++ [EvDefineInner "pass"]
                 ++ attempts "pass" 1 below
                 ++ map (fun t => EvTimeit "pass" n (Return t)) trials)).
Proof.
  apply (calibration_by_tens (toy (1 # 20) []) "pass" 3 false
           (toy_start (1 # 20) [])).
  reflexivity.
Defined.

Lemma unit_table_pairs (order : Z) (factor : Q) (unit_ : string) :
  py_getitem scaling order = Return factor ->
  py_getitem units order = Return unit_ ->
  0 <= order <= 3 ->
  In (unit_, factor) (combine units scaling).
Proof.
  intros Hf Hu Hr.
  destruct (unit_table order Hr) as [[_ [Hf' Hu']] | [[_ [Hf' Hu']] | [[_ [Hf' Hu']] | [_ [Hf' Hu']]]]];
    rewrite Hf' in Hf; rewrite Hu' in Hu; inversion Hf; inversion Hu; subst;
    simpl; tauto.
Qed.

(** C3: with a repeat count of at least 1 and an iteration count [n] of at
    least 1, the measurement returns; the time it reports is the smallest of
    the [repeat] trial times (a member of the list, below every member)
    divided by [n], expressed in the unit reported with it, and [loops] and
    [repeat] are the counts used.  [repeat] defaults to 3 in
    [magic_timeit] and in [Benchmark].  Trials of 5, 2 and 8 seconds report
    2/n. *)
Theorem best_of_repeats :
  (forall (R : Runtime) (stmt : string) (ncalls : option Z) (rep : Z)
          (force_ms : bool) (s s2 s3 : state R) (ns1 : Env R) (n : Z)
          (trials : list Q),
      define_inner R stmt (ns s) = (None, ns1) ->
      choose_number stmt ncalls
        (mkState ns1 (journal s ++ [EvDefineInner stmt])) = (Return n, s2) ->
      1 <= n ->
      1 <= rep ->
      Timer_repeat stmt rep n s2 = (Return trials, s3) ->
      exists (m factor : Q) (unit_ : string) (r : gmap string pyval),
        magic_timeit stmt ncalls rep force_ms s = (Return r, s3)
        /\ length trials = Z.to_nat rep
        /\ In m trials
        /\ (forall t, In t trials -> (m <= t)%Q)
        /\ In (unit_, factor) (combine units scaling)
        /\ r !! "loops"%string = Some (PyInt n)
        /\ r !! "repeat"%string = Some (PyInt rep)
        /\ r !! "units"%string = Some (PyStr unit_)
        /\ r !! "timing"%string = Some (PyFloat (m / inject_Z n * factor)))
  /\ (forall (R : Runtime) (stmt : string) (ncalls : option Z),
        @magic_timeit_defaults R stmt ncalls = magic_timeit stmt ncalls 3 false)
  /\ (forall code setup ncalls cleanup name description start_date logy db_path,
        repeat (Benchmark_init code setup ncalls None cleanup name description
                  start_date logy db_path) = 3)
  /\ (fst (three_trials (toy_start 0 [5; 2; 8]%Q))
      = Return (report 4 3 (2 / 4) 1000 "ms")).
Proof.
  split; [| split; [| split]]; [| reflexivity | reflexivity | reflexivity].
  intros R stmt ncalls rep force_ms s s2 s3 ns1 n trials Hd Hc Hn Hrep Ht.
  destruct (Timer_repeat_inv _ _ _ _ _ _ Ht) as [_ Hlen].
  assert (Hne : trials <> []).
  { intros ->. simpl in Hlen. lia. }
  destruct (py_min_nonempty trials Hne) as [m Hm].
  destruct (magic_timeit_intro stmt ncalls rep force_ms s s2 s3 ns1 n trials m
              Hd Hc Ht Hm ltac:(lia)) as (factor & unit_ & Hf & Hu & Hrun).
  destruct (py_min_spec trials m Hm) as [Hin Hlow].
  exists m, factor, unit_, (report n rep (m / inject_Z n) factor unit_).
  split; [exact Hrun |]. split; [exact Hlen |]. split; [exact Hin |].
  split; [exact Hlow |].
  split; [eapply unit_table_pairs; eauto using select_order_range |].
  pose proof (report_lookups n rep (m / inject_Z n) factor unit_) as Hl.
  tauto.
Qed.

Lemma best_of_repeats_witness :
  exists (m factor : Q) (unit_ : string) (r : gmap string pyval),
    three_trials (toy_start 0 [5; 2; 8]%Q)
    = (Return r, snd (three_trials (toy_start 0 [5; 2; 8]%Q)))
    /\ length [5; 2; 8]%Q = Z.to_nat 3
    /\ In m [5; 2; 8]%Q
    /\ (forall t, In t [5; 2; 8]%Q -> (m <= t)%Q)
    /\ In (unit_, factor) (combine units scaling)
    /\ r !! "loops"%string = Some (PyInt 4)
    /\ r !! "repeat"%string = Some (PyInt 3)
    /\ r !! "units"%string = Some (PyStr unit_)
    /\ r !! "timing"%string = Some (PyFloat (m / inject_Z 4 * factor)).
Proof.
  apply (proj1 best_of_repeats (toy 0 [5; 2; 8]%Q) "pass" (Some 4) 3 false
           (toy_start 0 [5; 2; 8]%Q)
           (@mkState (toy 0 [5; 2; 8]%Q)
              (mkToy ["def inner"%string] [5; 2; 8]%Q) [EvDefineInner "pass"])
           (snd (three_trials (toy_start 0 [5; 2; 8]%Q)))
           (mkToy ["def inner"%string] [5; 2; 8]%Q) 4 [5; 2; 8]%Q).
  - reflexivity.
  - reflexivity.
  - lia.
  - lia.
  - reflexivity.
Defined.

(** C4, as stated, fails: a time per iteration of 0.0005 seconds is
    reported in microseconds (as 500), not in milliseconds. *)
Lemma half_millisecond_in_microseconds :
  fst (half_millisecond (toy_start 0 [1 # 2000; 1 # 2000; 1 # 2000]%Q))
  = Return (report 1 3 ((1 # 2000) / 1) 1000000 "us")
  /\ report 1 3 ((1 # 2000) / 1) 1000000 "us" !! "units"%string
     <> Some (PyStr "ms").
Proof. split; [reflexivity | discriminate]. Qed.

Lemma select_order_forced (best : Q) : select_order true best = 1.
Proof. reflexivity. Qed.

(** ** The unit chosen, whatever [log10] rounds to *)

Lemma magic_timeit_by_exact {R : Runtime} (stmt : string) (ncalls : option Z)
    (rep : Z) (force_ms : bool) :
  @magic_timeit_by R floor_log10 stmt ncalls rep force_ms
  = magic_timeit stmt ncalls rep force_ms.
Proof. reflexivity. Qed.

Lemma getitem_pair (order : Z) (factor : Q) (unit_ : string) :
  py_getitem scaling order = Return factor ->
  py_getitem units order = Return unit_ ->
  In (unit_, factor) (combine units scaling).
Proof.
  intros Hf Hu.
  assert (Hr : -4 <= order <= 3).
  { unfold py_getitem in Hf. simpl length in Hf.
    destruct (Z.ltb_spec order 0);
      [destruct (Z.leb_spec 0 (order + Z.of_nat 4));
       destruct (Z.ltb_spec (order + Z.of_nat 4) (Z.of_nat 4))
      | destruct (Z.leb_spec 0 order);
        destruct (Z.ltb_spec order (Z.of_nat 4))];
      simpl in Hf; try discriminate; lia. }
  assert (Hc : order = -4 \/ order = -3 \/ order = -2 \/ order = -1
               \/ order = 0 \/ order = 1 \/ order = 2 \/ order = 3) by lia.
  destruct Hc as [-> | [-> | [-> | [-> | [-> | [-> | [-> | ->]]]]]]];
    inversion Hf; inversion Hu; subst; simpl; tauto.
Qed.

Lemma magic_timeit_by_inv {R : Runtime} (flog : Q -> Z) (stmt : string)
    (ncalls : option Z) (rep : Z) (force_ms : bool) (s s' : state R)
    (r : gmap string pyval) :
  magic_timeit_by flog stmt ncalls rep force_ms s = (Return r, s') ->
  exists (number : Z) (best factor : Q) (unit_ : string),
    py_getitem scaling (select_order_by flog force_ms best) = Return factor
    /\ py_getitem units (select_order_by flog force_ms best) = Return unit_
    /\ r = report number rep best factor unit_.
Proof.
  unfold magic_timeit_by, bind, record, in_ns, lift, ret. simpl.
  destruct (define_inner R stmt (ns s)) as [[e |] ns1]; [discriminate |].
  destruct (choose_number stmt ncalls _) as [[number | e] s2]; [| discriminate].
  destruct (Timer_repeat stmt rep number s2) as [[trials | e] s3]; [| discriminate].
  destruct (py_min trials) as [m | e]; [| discriminate].
  unfold py_div. destruct (Z.eqb_spec number 0) as [| Hn]; [discriminate |].
  destruct (py_getitem scaling _) as [factor | e] eqn:Ef; [| discriminate].
  destruct (py_getitem units _) as [unit_ | e] eqn:Eu; [| discriminate].
  intros H. inversion H; subst.
  exists number, (m / inject_Z number)%Q, factor, unit_. auto.
Qed.

Lemma select_order_by_cases (flog : Q -> Z) (best : Q) :
  ((1000 <= best)%Q -> select_order_by flog false best = 0)
  /\ ((best <= 0)%Q -> select_order_by flog false best = 3)
  /\ ((0 < best)%Q -> (best < 1000)%Q ->
      select_order_by flog false best = Z.min (- (flog best / 3)) 3).
Proof.
  unfold select_order_by. repeat split.
  - intros H. assert (Hn : Qltb best 1000 = false).
    { apply not_true_iff_false. rewrite Qltb_lt. now apply Qle_not_lt. }
    rewrite Hn, andb_false_r. apply Qle_bool_iff in H. now rewrite H.
  - intros H.
    assert (Hn : Qltb 0 best = false).
    { apply not_true_iff_false. rewrite Qltb_lt. now apply Qle_not_lt. }
    rewrite Hn. simpl.
    assert (Hm : Qle_bool 1000 best = false).
    { apply Qle_bool_false. eapply Qle_lt_trans; [exact H |].
      unfold Qlt. simpl. lia. }
    now rewrite Hm.
  - intros H0 H1.
    now rewrite (proj2 (Qltb_lt 0 best) H0), (proj2 (Qltb_lt best 1000) H1).
Qed.

(** C4, amended: the result reports [best * factor] in the unit that goes
    with [factor] in the tables.  With [force_ms] the unit is always
    milliseconds.  Otherwise a time of 1000 seconds or more is reported in
    seconds and a non-positive time in nanoseconds, neither involving
    [log10]; a time of exactly 1.0 second, for which [floor(log10)] is 0, is
    reported in seconds, and a time of 0.0005 seconds, for which
    [floor(log10)] is -4, is reported in microseconds. *)
Theorem unit_selection (R : Runtime) (flog : Q -> Z) (stmt : string)
    (ncalls : option Z) (rep : Z) (force_ms : bool) (s s' : state R)
    (r : gmap string pyval) :
  magic_timeit_by flog stmt ncalls rep force_ms s = (Return r, s') ->
  exists (best factor : Q) (unit_ : string),
    r !! "timing"%string = Some (PyFloat (best * factor))
    /\ r !! "units"%string = Some (PyStr unit_)
    /\ In (unit_, factor) (combine units scaling)
    /\ (force_ms = true -> unit_ = "ms"%string /\ factor = 1000%Q)
    /\ (force_ms = false ->
        ((1000 <= best)%Q -> unit_ = "s"%string /\ factor = 1%Q)
        /\ ((best <= 0)%Q -> unit_ = "ns"%string /\ factor = 1000000000%Q)
        /\ ((best == 1)%Q -> flog best = 0 ->
            unit_ = "s"%string /\ factor = 1%Q)
        /\ ((best == 1 # 2000)%Q -> flog best = -4 ->
            unit_ = "us"%string /\ factor = 1000000%Q)).
Proof.
  intros H. apply magic_timeit_by_inv in H.
  destruct H as (number & best & factor & unit_ & Hf & Hu & ->).
  exists best, factor, unit_.
  pose proof (report_lookups number rep best factor unit_) as (_ & _ & Htim & Hun & _).
  split; [exact Htim |]. split; [exact Hun |].
  split; [eapply getitem_pair; eassumption |].
  split.
  - intros ->. simpl in Hf, Hu. inversion Hf; inversion Hu. auto.
  - intros ->.
    destruct (select_order_by_cases flog best) as (H1000 & Hneg & Hlog).
    repeat split.
    + rewrite (H1000 H) in Hu. now inversion Hu.
    + rewrite (H1000 H) in Hf. now inversion Hf.
    + rewrite (Hneg H) in Hu. now inversion Hu.
    + rewrite (Hneg H) in Hf. now inversion Hf.
    + rewrite Hlog, H0 in Hu; [now inversion Hu | |]; rewrite H;
        unfold Qlt; simpl; lia.
    + rewrite Hlog, H0 in Hf; [now inversion Hf | |]; rewrite H;
        unfold Qlt; simpl; lia.
    + rewrite Hlog, H0 in Hu; [now inversion Hu | |]; rewrite H;
        unfold Qlt; simpl; lia.
    + rewrite Hlog, H0 in Hf; [now inversion Hf | |]; rewrite H;
        unfold Qlt; simpl; lia.
Qed.

Lemma unit_selection_witness :
  exists (best factor : Q) (unit_ : string),
    returned half_millisecond (toy_start 0 [1 # 2000; 1 # 2000; 1 # 2000]%Q)
      !! "timing"%string = Some (PyFloat (best * factor))
    /\ returned half_millisecond (toy_start 0 [1 # 2000; 1 # 2000; 1 # 2000]%Q)
         !! "units"%string = Some (PyStr unit_)
    /\ In (unit_, factor) (combine units scaling)
    /\ (false = true -> unit_ = "ms"%string /\ factor = 1000%Q)
    /\ (false = false ->
        ((1000 <= best)%Q -> unit_ = "s"%string /\ factor = 1%Q)
        /\ ((best <= 0)%Q -> unit_ = "ns"%string /\ factor = 1000000000%Q)
        /\ ((best == 1)%Q -> floor_log10 best = 0 ->
            unit_ = "s"%string /\ factor = 1%Q)
        /\ ((best == 1 # 2000)%Q -> floor_log10 best = -4 ->
            unit_ = "us"%string /\ factor = 1000000%Q)).
Proof.
  apply (unit_selection (toy 0 [1 # 2000; 1 # 2000; 1 # 2000]%Q) floor_log10
           "pass" (Some 1) 3 false
           (toy_start 0 [1 # 2000; 1 # 2000; 1 # 2000]%Q)
           (snd (half_millisecond
                   (toy_start 0 [1 # 2000; 1 # 2000; 1 # 2000]%Q)))).
  reflexivity.
Defined.

(** The decade that never rounds gives 0 at one second and -4 at half a
    millisecond, whatever fraction stands for them. *)
Lemma floor_log10_points (best : Q) :
  ((best == 1)%Q -> floor_log10 best = 0)
  /\ ((best == 1 # 2000)%Q -> floor_log10 best = -4).
Proof.
  split; intros H.
  - assert (Hpos : (0 < best)%Q) by (rewrite H; unfold Qlt; simpl; lia).
    pose proof (floor_log10_lt best Hpos 1 ltac:(lia)) as H1.
    pose proof (floor_log10_ge best Hpos 0 ltac:(lia)) as H2.
    unfold Qeq in H. simpl in H.
    specialize (H1 ltac:(simpl; lia)). specialize (H2 ltac:(simpl; lia)). lia.
  - assert (Hpos : (0 < best)%Q) by (rewrite H; unfold Qlt; simpl; lia).
    pose proof (floor_log10_lt_neg best Hpos 3 ltac:(lia)) as H1.
    pose proof (floor_log10_ge_neg best Hpos 4 ltac:(lia)) as H2.
    unfold Qeq in H. simpl in H.
    specialize (H1 ltac:(simpl; lia)). specialize (H2 ltac:(simpl; lia)). lia.
Qed.

(** ** Invalid counts *)

(** C9, as stated, fails: an iteration count of 0 is not rejected; the
    three trials are run with it and the failure is the division by zero
    itself. *)
Lemma zero_iterations_divides_by_zero :
  fst (zero_iterations (toy_start 0 [])) = Raise ZeroDivisionError
  /\ timed_counts (journal (snd (zero_iterations (toy_start 0 []))))
     = [0; 0; 0].
Proof. split; reflexivity. Qed.

(** C9, amended: neither count is validated.  With an explicit iteration
    count of 0 the [repeat] trials are run and the call then fails with
    ZeroDivisionError, raised by the division of the best time by 0.  With a
    repeat count below 1 no measuring trial is run and the call fails with
    ValueError, raised by [min] of the empty list, once the iteration count
    has been chosen. *)
Theorem counts_not_validated :
  (forall (R : Runtime) (stmt : string) (rep : Z) (force_ms : bool)
          (s s2 : state R) (ns1 : Env R) (trials : list Q),
      define_inner R stmt (ns s) = (None, ns1) ->
      1 <= rep ->
      Timer_repeat stmt rep 0
        (mkState ns1 (journal s ++ [EvDefineInner stmt])) = (Return trials, s2) ->
      magic_timeit stmt (Some 0) rep force_ms s = (Raise ZeroDivisionError, s2)
      /\ length trials = Z.to_nat rep
      /\ journal s2
         = journal s ++ [EvDefineInner stmt]
           ++ map (fun t => EvTimeit stmt 0 (Return t)) trials)
  /\ (forall (R : Runtime) (stmt : string) (ncalls : option Z) (rep : Z)
             (force_ms : bool) (s s2 : state R) (ns1 : Env R) (n : Z),
         define_inner R stmt (ns s) = (None, ns1) ->
         choose_number stmt ncalls
           (mkState ns1 (journal s ++ [EvDefineInner stmt])) = (Return n, s2) ->
         rep < 1 ->
         magic_timeit stmt ncalls rep force_ms s = (Raise ValueError_min, s2)).
Proof.
  split.
  - intros R stmt rep force_ms s s2 ns1 trials Hd Hrep Ht.
    destruct (Timer_repeat_inv _ _ _ _ _ _ Ht) as [Hj Hlen].
    split; [| split; [exact Hlen |]].
    + unfold magic_timeit, bind, record, in_ns, lift, ret, choose_number. simpl.
      rewrite Hd, Ht.
      destruct trials as [| t trials]; [simpl in Hlen; lia |]. reflexivity.
    + rewrite Hj. cbn [journal]. now rewrite <- app_assoc.
  - intros R stmt ncalls rep force_ms s s2 ns1 n Hd Hc Hrep.
    unfold magic_timeit, bind, record, in_ns, lift, ret. simpl.
    rewrite Hd, Hc. unfold Timer_repeat.
    replace (Z.to_nat rep) with 0%nat by lia. reflexivity.
Qed.

Lemma counts_not_validated_witness :
  zero_iterations (toy_start 0 [])
  = (Raise ZeroDivisionError, snd (zero_iterations (toy_start 0 [])))
  /\ length [0; 0; 0]%Q = Z.to_nat 3
  /\ journal (snd (zero_iterations (toy_start 0 [])))
     = journal (toy_start 0 []) ++ [EvDefineInner "pass"]
       ++ map (fun t => EvTimeit "pass" 0 (Return t)) [0; 0; 0]%Q.
Proof.
  apply (proj1 counts_not_validated (toy 0 []) "pass" 3 false
           (toy_start 0 [])
           (snd (zero_iterations (toy_start 0 [])))
           (mkToy ["def inner"%string] []) [0; 0; 0]%Q).
  - reflexivity.
  - lia.
  - reflexivity.
Defined.

(** ** Cleanup *)

(** C6: when the setup succeeds, [run] executes the cleanup text once, in
    the namespace as the timer left it and after every timing event,
    whether the timer returned or raised; an exception raised by the
    cleanup is the outcome of [run]. *)
Theorem cleanup_runs_once (R : Runtime) (b : Benchmark) (s s2 : state R)
    (ns1 ns3 : Env R) (o : outcome (gmap string pyval)) (c : option exn) :
  exec_ R (setup b) (globals_copy R) = (None, ns1) ->
  magic_timeit (code b) (ncalls b) (repeat b) true
    (mkState ns1 (journal s ++ [EvSetup (setup b)])) = (o, s2) ->
  exec_ R (cleanup b) (ns s2) = (c, ns3) ->
  run b s
  = (match c with None => Return (run_result o) | Some e => Raise e end,
     mkState ns3 (journal s2 ++ [EvCleanup (cleanup b)]))
  /\ count_cleanups (journal s2) = count_cleanups (journal s)
  /\ count_cleanups (journal s2 ++ [EvCleanup (cleanup b)])
     = S (count_cleanups (journal s)).
Proof.
  intros Hs Hm Hc.
  split; [now apply (run_setup_ok b s s2 ns1 ns3 o c) |].
  destruct (timing_only_magic_timeit _ _ _ _ _ _ _ Hm) as [evs [Hj Hall]].
  cbn [journal] in Hj.
  assert (H2 : count_cleanups (journal s2) = count_cleanups (journal s)).
  { rewrite Hj, !count_cleanups_app, (count_cleanups_timing evs Hall).
    unfold count_cleanups at 2. simpl. lia. }
  split; [exact H2 |].
  rewrite count_cleanups_app, H2. unfold count_cleanups at 2. simpl. lia.
Qed.

Lemma cleanup_runs_once_witness :
  run failing_bench fresh
  = (Return (run_result (Raise toy_error)),
     @mkState two_seconds (mkToy ["x = 1"; "def inner"; "del x"]%string [])
       (journal (snd (magic_timeit "raise" None 3 true after_setup))
        ++ [EvCleanup "del x"]))
  /\ count_cleanups (journal (snd (magic_timeit "raise" None 3 true after_setup)))
     = count_cleanups (journal fresh)
  /\ count_cleanups
       (journal (snd (magic_timeit "raise" None 3 true after_setup))
        ++ [EvCleanup "del x"])
     = S (count_cleanups (journal fresh)).
Proof.
  apply (cleanup_runs_once two_seconds failing_bench fresh
           (snd (magic_timeit "raise" None 3 true after_setup))
           (mkToy ["x = 1"%string] [])
           (mkToy ["x = 1"; "def inner"; "del x"]%string [])
           (Raise toy_error) None); reflexivity.
Defined.

(** On the success path too: the run of a benchmark whose code returns ends
    with its single cleanup event. *)
Example cleanup_after_success :
  exists r,
    fst (run ok_bench fresh) = Return r
    /\ r !! "success"%string = Some (PyBool true)
    /\ count_cleanups (journal (snd (run ok_bench fresh))) = 1%nat
    /\ List.last (journal (snd (run ok_bench fresh))) (EvSetup EmptyString)
       = EvCleanup "del x"
    /\ executed (ns (snd (run ok_bench fresh)))
       = ["x = 1"; "def inner"; "pass"; "pass"; "pass"; "pass"; "del x"]%string.
Proof. eexists. repeat split; reflexivity. Qed.

(** ** Failures of the timed code *)

(** C7, as stated, fails: when the timed code raises and the cleanup text
    raises too, [run] returns no result; the exception of the cleanup
    propagates. *)
Lemma failing_cleanup_returns_no_result :
  fst (magic_timeit (code failing_cleanup) (ncalls failing_cleanup)
         (repeat failing_cleanup) true after_setup) = Raise toy_error
  /\ fst (run failing_cleanup fresh) = Raise toy_error
  /\ forall r s', run failing_cleanup fresh <> (Return r, s').
Proof.
  split; [reflexivity |]. split; [reflexivity |].
  intros r s' H. apply (f_equal fst) in H. simpl in H. discriminate H.
Qed.

(** C7, amended: when the setup succeeds, the timer raises and the cleanup
    text does not raise, [run] returns a record whose [success] is false,
    whose [traceback] is a non-empty text and which has no [timing],
    [loops] or [units].  A batch that runs to its end yields one record per
    benchmark, in order: the record of a benchmark whose timer raised is
    that failure record, the record of one whose timer returned has
    [success] true. *)
Theorem timing_failure_is_captured :
  (forall (R : Runtime) (b : Benchmark) (s s2 : state R) (ns1 ns3 : Env R)
          (e : exn),
      exec_ R (setup b) (globals_copy R) = (None, ns1) ->
      magic_timeit (code b) (ncalls b) (repeat b) true
        (mkState ns1 (journal s ++ [EvSetup (setup b)])) = (Raise e, s2) ->
      exec_ R (cleanup b) (ns s2) = (None, ns3) ->
      exists (r : gmap string pyval) (tb : string),
        run b s
        = (Return r, mkState ns3 (journal s2 ++ [EvCleanup (cleanup b)]))
        /\ r !! "success"%string = Some (PyBool false)
        /\ r !! "traceback"%string = Some (PyStr tb)
        /\ tb <> ""%string
        /\ r !! "timing"%string = None
        /\ r !! "loops"%string = None
        /\ r !! "units"%string = None)
  /\ (forall (R : Runtime) (bs : list Benchmark) (s s' : state R)
             (rs : list (gmap string pyval)),
         run_all bs s = (Return rs, s') ->
         length rs = length bs
         /\ Forall2
              (fun b r =>
                 exists (s1 s2 : state R) (o : outcome (gmap string pyval)),
                   magic_timeit (code b) (ncalls b) (repeat b) true s1 = (o, s2)
                   /\ match o with
                      | Return r0 =>
                          r = <["success"%string := PyBool true]> r0
                          /\ r !! "success"%string = Some (PyBool true)
                      | Raise e =>
                          r = failure_record e
                          /\ r !! "success"%string = Some (PyBool false)
                          /\ r !! "traceback"%string = Some (PyStr (print_exc e))
                          /\ print_exc e <> ""%string
                      end)
              bs rs).
Proof.
  split.
  - intros R b s s2 ns1 ns3 e Hs Hm Hc.
    exists (failure_record e), (print_exc e).
    split; [exact (run_setup_ok b s s2 ns1 ns3 (Raise e) None Hs Hm Hc) |].
    pose proof (failure_record_lookups e) as Hl.
    pose proof (print_exc_nonempty e). tauto.
  - intros R bs s s' rs H.
    apply run_all_inv in H.
    split; [symmetry; eapply Forall2_length; eassumption |].
    eapply Forall2_impl; [exact H |].
    intros b r (s1 & o & s2 & Hm & ->).
    exists s1, s2, o. split; [exact Hm |].
    destruct o as [r0 | e]; simpl.
    + split; [reflexivity | apply lookup_insert_eq].
    + pose proof (failure_record_lookups e) as Hl.
      pose proof (print_exc_nonempty e). tauto.
Qed.

Lemma timing_failure_is_captured_witness :
  exists (r : gmap string pyval) (tb : string),
    run failing_bench fresh
    = (Return r,
       @mkState two_seconds (mkToy ["x = 1"; "def inner"; "del x"]%string [])
         (journal (snd (magic_timeit "raise" None 3 true after_setup))
          ++ [EvCleanup (cleanup failing_bench)]))
    /\ r !! "success"%string = Some (PyBool false)
    /\ r !! "traceback"%string = Some (PyStr tb)
    /\ tb <> ""%string
    /\ r !! "timing"%string = None
    /\ r !! "loops"%string = None
    /\ r !! "units"%string = None.
Proof.
  apply (proj1 timing_failure_is_captured two_seconds failing_bench fresh
           (snd (magic_timeit "raise" None 3 true after_setup))
           (mkToy ["x = 1"%string] [])
           (mkToy ["x = 1"; "def inner"; "del x"]%string [])
           toy_error); reflexivity.
Defined.

(** A batch of three benchmarks whose second has failing code: three
    records, the second a failure record, the others successes. *)
Example batch_of_three :
  exists r1 r2 r3,
    fst (run_all [ok_bench; failing_bench; ok_bench] fresh) = Return [r1; r2; r3]
    /\ r1 !! "success"%string = Some (PyBool true)
    /\ r2 !! "success"%string = Some (PyBool false)
    /\ r2 !! "traceback"%string = Some (PyStr (print_exc toy_error))
    /\ r3 !! "success"%string = Some (PyBool true).
Proof. do 3 eexists. repeat split; reflexivity. Qed.

(** ** Setup failures *)

(** C8: an exception raised by the setup text is the outcome of [run]; the
    journal then holds the setup and nothing else: no timing event, no
    cleanup, and no record is returned. *)
Theorem setup_failure_propagates (R : Runtime) (b : Benchmark) (s : state R)
    (e : exn) (ns1 : Env R) :
  exec_ R (setup b) (globals_copy R) = (Some e, ns1) ->
  run b s = (Raise e, mkState ns1 (journal s ++ [EvSetup (setup b)]))
  /\ (forall r s', run b s <> (Return r, s'))
  /\ timed_counts (journal (snd (run b s))) = timed_counts (journal s)
  /\ count_cleanups (journal (snd (run b s))) = count_cleanups (journal s).
Proof.
  intros H. pose proof (run_setup_fails b s e ns1 H) as Hr.
  split; [exact Hr |]. rewrite Hr. cbn [snd journal].
  split; [intros r s' Heq; discriminate Heq |].
  split.
  - unfold timed_counts. rewrite flat_map_app. simpl. now rewrite app_nil_r.
  - rewrite count_cleanups_app. unfold count_cleanups at 2. simpl. lia.
Qed.

Lemma setup_failure_propagates_witness :
  run failing_setup fresh
  = (Raise toy_error,
     @mkState two_seconds (mkToy [] []) (journal fresh ++ [EvSetup "raise"]))
  /\ (forall r s', run failing_setup fresh <> (Return r, s'))
  /\ timed_counts (journal (snd (run failing_setup fresh)))
     = timed_counts (journal fresh)
  /\ count_cleanups (journal (snd (run failing_setup fresh)))
     = count_cleanups (journal fresh).
Proof.
  apply (setup_failure_propagates two_seconds failing_setup fresh toy_error
           (mkToy [] [])).
  reflexivity.
Defined.

(** ** The unit of a run *)

(** C10: a record returned by [run] with [success] true has the unit
    ["ms"] and a timing that is the best time per iteration multiplied by
    1000, whatever that time is: [run] calls the timer with [force_ms]. *)
Theorem run_reports_milliseconds (R : Runtime) (b : Benchmark)
    (s s' : state R) (r : gmap string pyval) :
  run b s = (Return r, s') ->
  r !! "success"%string = Some (PyBool true) ->
  r !! "units"%string = Some (PyStr "ms")
  /\ exists best : Q, r !! "timing"%string = Some (PyFloat (best * 1000)).
Proof.
  intros H Hsucc.
  apply run_inv in H. destruct H as (ns1 & o & s2 & _ & Hm & ->).
  destruct o as [r0 | e]; simpl in *.
  - apply magic_timeit_inv in Hm.
    destruct Hm as (ns2 & n & s3 & trials & m & factor & unit_
                    & _ & _ & _ & _ & _ & Hf & Hu & ->).
    rewrite select_order_forced in Hf, Hu.
    inversion Hf; inversion Hu; subst.
    split; [reflexivity |]. exists (m / inject_Z n)%Q. reflexivity.
  - pose proof (failure_record_lookups e) as [Hl _]. congruence.
Qed.

Lemma run_reports_milliseconds_witness :
  returned (run ok_bench) fresh !! "units"%string = Some (PyStr "ms")
  /\ exists best : Q,
       returned (run ok_bench) fresh !! "timing"%string
       = Some (PyFloat (best * 1000)).
Proof.
  apply (run_reports_milliseconds two_seconds ok_bench fresh
           (snd (run ok_bench fresh))); reflexivity.
Defined.

(** The same statement measured without [force_ms] is reported in seconds:
    the unit of [run] does not come from the magnitude. *)
Example adaptive_unit_differs :
  returned (magic_timeit "pass" None 3 false) after_setup !! "units"%string
  = Some (PyStr "s")
  /\ returned (run ok_bench) fresh !! "units"%string = Some (PyStr "ms")
  /\ returned (run ok_bench) fresh !! "timing"%string
     = Some (PyFloat (2 * 1 / 1 * 1000)).
Proof. repeat split; reflexivity. Qed.

(* ===================================================================== *)
(** * Further properties of the module *)
(* ===================================================================== *)

(** ** Lines of text *)

Lemma split_lines_nonempty (s : string) : split_lines s <> [].
Proof.
  destruct s as [| c s]; simpl; [discriminate |].
  destruct (Ascii.eqb c nl); [discriminate |].
  destruct (split_lines s); discriminate.
Qed.

Lemma str_app_cons (c : ascii) (a b : string) :
  (String c a ++ b)%string = String c (a ++ b)%string.
Proof. reflexivity. Qed.

Lemma str_app_nil (b : string) : ("" ++ b)%string = b.
Proof. reflexivity. Qed.

Lemma concat_cons (sep x : string) (l : list string) :
  l <> [] -> String.concat sep (x :: l) = (x ++ sep ++ String.concat sep l)%string.
Proof. destruct l; [congruence | reflexivity]. Qed.

Lemma str_app_assoc (a b c : string) : ((a ++ b) ++ c = a ++ (b ++ c))%string.
Proof.
  induction a as [| x a IH]; [reflexivity |].
  rewrite !str_app_cons. now rewrite IH.
Qed.

Lemma str_app_nil_r (a : string) : (a ++ "")%string = a.
Proof.
  induction a as [| x a IH]; [reflexivity |]. rewrite str_app_cons. now rewrite IH.
Qed.

Lemma str_length_app (a b : string) :
  String.length (a ++ b) = (String.length a + String.length b)%nat.
Proof.
  induction a as [| x a IH]; [reflexivity |].
  rewrite str_app_cons. simpl. now rewrite IH.
Qed.

(** Joining the lines gives the string back. *)
Lemma join_split_lines (s : string) : String.concat newline (split_lines s) = s.
Proof.
  induction s as [| c s IH]; [reflexivity |].
  cbn [split_lines]. destruct (Ascii.eqb_spec c nl) as [-> | Hc].
  - rewrite concat_cons by apply split_lines_nonempty. now rewrite IH.
  - pose proof (split_lines_nonempty s) as Hne.
    destruct (split_lines s) as [| l ls]; [congruence |].
    destruct ls as [| l2 ls].
    + simpl in *. now rewrite IH.
    + rewrite concat_cons by discriminate.
      rewrite concat_cons in IH by discriminate.
      rewrite str_app_cons. now rewrite IH.
Qed.

Lemma split_lines_app (a b : string) :
  split_lines (a ++ String nl b) = split_lines a ++ split_lines b.
Proof.
  induction a as [| c a IH].
  - reflexivity.
  - rewrite str_app_cons. cbn [split_lines]. rewrite IH.
    destruct (Ascii.eqb c nl); [reflexivity |].
    pose proof (split_lines_nonempty a) as Hne.
    destruct (split_lines a); [congruence | reflexivity].
Qed.

Lemma split_lines_one_line (s : string) : one_line s -> split_lines s = [s].
Proof.
  unfold one_line. induction s as [| c s IH]; intros H; [reflexivity |].
  cbn [split_lines]. simpl in H.
  destruct (Ascii.eqb_spec c nl) as [-> | Hc]; [exfalso; apply H; now left |].
  rewrite IH; [reflexivity |]. intros Hin. apply H. now right.
Qed.

Lemma one_line_append (a b : string) : one_line a -> one_line b -> one_line (a ++ b).
Proof.
  unfold one_line. induction a as [| c a IH]; intros Ha Hb; [exact Hb |].
  rewrite str_app_cons. simpl in *. intros [Hc | Hin]; [apply Ha; now left |].
  apply IH; auto.
Qed.

Lemma split_lines_pieces (s : string) : Forall one_line (split_lines s).
Proof.
  induction s as [| c s IH]; cbn [split_lines].
  - constructor; [| constructor]. unfold one_line. simpl. tauto.
  - destruct (Ascii.eqb_spec c nl) as [-> | Hc].
    + constructor; [| exact IH]. unfold one_line. simpl. tauto.
    + destruct (split_lines s) as [| l ls].
      * repeat constructor. unfold one_line. simpl. intuition congruence.
      * inversion IH; subst. constructor; [| assumption].
        unfold one_line in *. simpl. intros [H | H]; [congruence | contradiction].
Qed.

Lemma one_line_spaces (n : Z) : one_line (spaces_str n).
Proof.
  unfold one_line, spaces_str. rewrite list_ascii_of_string_of_list_ascii.
  intros H. apply repeat_spec in H. discriminate H.
Qed.

(** Splitting a join of one-line pieces gives the pieces back. *)
Lemma split_join_lines (l : list string) :
  l <> [] -> Forall one_line l -> split_lines (String.concat newline l) = l.
Proof.
  induction l as [| x l IH]; intros Hne Hall; [congruence |].
  inversion Hall as [| ? ? Hx Hl]; subst.
  destruct l as [| y l].
  - simpl. now apply split_lines_one_line.
  - rewrite concat_cons by discriminate.
    change (x ++ newline ++ String.concat newline (y :: l))%string
      with (x ++ String nl (String.concat newline (y :: l)))%string.
    rewrite split_lines_app, IH by (auto; discriminate).
    now rewrite split_lines_one_line.
Qed.

Lemma string_of_list_ascii_app (l1 l2 : list ascii) :
  string_of_list_ascii (l1 ++ l2)
  = (string_of_list_ascii l1 ++ string_of_list_ascii l2)%string.
Proof.
  induction l1 as [| c l1 IH]; [reflexivity |].
  simpl. rewrite str_app_cons. now rewrite IH.
Qed.

Lemma length_string_of_list_ascii (l : list ascii) :
  String.length (string_of_list_ascii l) = length l.
Proof. induction l as [| c l IH]; simpl; [reflexivity | now rewrite IH]. Qed.

Lemma length_spaces_str (n : Z) : String.length (spaces_str n) = Z.to_nat n.
Proof.
  unfold spaces_str. now rewrite length_string_of_list_ascii, repeat_length.
Qed.

Lemma spaces_str_add (a b : Z) :
  0 <= a -> 0 <= b ->
  spaces_str (a + b) = (spaces_str b ++ spaces_str a)%string.
Proof.
  intros Ha Hb. unfold spaces_str.
  rewrite <- string_of_list_ascii_app, <- repeat_app. f_equal. f_equal. lia.
Qed.

Lemma concat_app (sep : string) (l1 l2 : list string) :
  l1 <> [] -> l2 <> [] ->
  String.concat sep (l1 ++ l2)
  = (String.concat sep l1 ++ sep ++ String.concat sep l2)%string.
Proof.
  intros H1 H2. induction l1 as [| x l1 IH]; [congruence |].
  destruct l1 as [| y l1].
  - simpl app. now rewrite concat_cons.
  - change ((x :: y :: l1) ++ l2) with (x :: ((y :: l1) ++ l2)).
    rewrite concat_cons by discriminate.
    rewrite IH by discriminate.
    rewrite (concat_cons sep x (y :: l1)) by discriminate.
    now rewrite !str_app_assoc.
Qed.

Lemma length_concat_prefixed (d : string) (l : list string) :
  l <> [] ->
  String.length (String.concat newline (map (fun x => (d ++ x)%string) l))
  = (String.length (String.concat newline l) + String.length d * length l)%nat.
Proof.
  induction l as [| x l IH]; intros Hne; [congruence |].
  destruct l as [| y l].
  - simpl. rewrite str_length_app. lia.
  - change (map (fun x => (d ++ x)%string) (x :: y :: l))
      with ((d ++ x)%string :: map (fun x => (d ++ x)%string) (y :: l)).
    rewrite concat_cons by discriminate.
    rewrite (concat_cons newline x (y :: l)) by discriminate.
    rewrite !str_length_app, IH by discriminate.
    rewrite ?str_length_app. simpl length. lia.
Qed.

(** ** [indent] *)

Lemma split_lines_indent (s : string) (spaces : Z) :
  split_lines (indent s spaces)
  = map (fun x => (spaces_str spaces ++ x)%string) (split_lines s).
Proof.
  unfold indent. apply split_join_lines.
  - pose proof (split_lines_nonempty s). destruct (split_lines s); [congruence | discriminate].
  - apply List.Forall_forall. intros x Hx. apply List.in_map_iff in Hx.
    destruct Hx as [y [<- Hy]].
    apply one_line_append; [apply one_line_spaces |].
    pose proof (split_lines_pieces s) as Hall.
    rewrite List.Forall_forall in Hall. now apply Hall.
Qed.

(** X1: the lines of an indented text are the lines of the text, each behind
    the indentation. *)
Theorem indent_lines (s : string) (spaces : Z) :
  split_lines (indent s spaces)
  = map (fun x => (spaces_str spaces ++ x)%string) (split_lines s).
Proof.
  pose proof (split_lines_indent s spaces) as H.
  rewrite H. reflexivity.
Qed.

(** X2: an indentation of zero or fewer spaces leaves the text as it is. *)
Theorem indent_nonpositive (s : string) (spaces : Z) :
  spaces <= 0 -> indent s spaces = s.
Proof.
  intros H. unfold indent, spaces_str.
  replace (Z.to_nat spaces) with 0%nat by lia. simpl List.repeat.
  simpl string_of_list_ascii.
  rewrite (map_ext (fun x => ("" ++ x)%string) (fun x => x)) by reflexivity.
  rewrite map_id. apply join_split_lines.
Qed.

Lemma indent_nonpositive_witness :
  indent ("x = 1" ++ newline ++ "y = 2") (-3) = ("x = 1" ++ newline ++ "y = 2")%string.
Proof. apply (indent_nonpositive ("x = 1" ++ newline ++ "y = 2") (-3)). lia. Defined.

(** X3: indenting two texts joined by a line break indents each of them. *)
Theorem indent_line_break (a b : string) (spaces : Z) :
  indent (a ++ newline ++ b) spaces
  = (indent a spaces ++ newline ++ indent b spaces)%string.
Proof.
  unfold indent.
  change (a ++ newline ++ b)%string with (a ++ String nl b)%string.
  rewrite split_lines_app, map_app.
  apply concat_app.
  - pose proof (split_lines_nonempty a). destruct (split_lines a); [congruence | discriminate].
  - pose proof (split_lines_nonempty b). destruct (split_lines b); [congruence | discriminate].
Qed.

(** X4: indenting adds the indentation once per line to the length. *)
Theorem indent_length (s : string) (spaces : Z) :
  String.length (indent s spaces)
  = (String.length s + Z.to_nat spaces * length (split_lines s))%nat.
Proof.
  unfold indent.
  rewrite length_concat_prefixed by apply split_lines_nonempty.
  now rewrite join_split_lines, length_spaces_str.
Qed.

(** X5: indenting twice is indenting once by the sum. *)
Theorem indent_indent (s : string) (a b : Z) :
  0 <= a -> 0 <= b -> indent (indent s a) b = indent s (a + b).
Proof.
  intros Ha Hb. unfold indent at 1. rewrite split_lines_indent, map_map.
  unfold indent. f_equal. apply map_ext. intros x.
  now rewrite spaces_str_add, str_app_assoc.
Qed.

Lemma indent_indent_witness :
  indent (indent ("x = 1" ++ newline ++ "y = 2") 4) 2
  = indent ("x = 1" ++ newline ++ "y = 2") (4 + 2).
Proof. apply (indent_indent ("x = 1" ++ newline ++ "y = 2") 4 2); lia. Defined.

(** ** [to_rst] *)

Lemma split_lines_cons_nl (s : string) :
  split_lines (String nl s) = EmptyString :: split_lines s.
Proof. reflexivity. Qed.

Lemma split_lines_literal (x rest : string) :
  one_line x ->
  split_lines (x ++ newline ++ rest) = x :: split_lines rest.
Proof.
  intros H. change (x ++ newline ++ rest)%string with (x ++ String nl rest)%string.
  now rewrite split_lines_app, split_lines_one_line.
Qed.

Ltac one_line_literal :=
  unfold one_line; simpl; intros Hin;
  repeat (destruct Hin as [Hin | Hin]; [discriminate Hin |]); exact Hin.

Lemma split_lines_to_rst (self : Benchmark) :
  split_lines (to_rst self None)
  = ["**Benchmark setup**"; ""; ".. code-block:: python"; ""]%string
    ++ map (fun x => ("    " ++ x)%string) (split_lines (setup self))
    ++ [""; "**Benchmark statement**"; ""; ".. code-block:: python"; ""]%string
    ++ map (fun x => ("    " ++ x)%string) (split_lines (code self))
    ++ [""; ""]%string.
Proof.
  unfold to_rst.
  rewrite split_lines_literal by one_line_literal.
  change (newline ++ ".. code-block:: python" ++ newline ++ newline
          ++ indent (setup self) 4 ++ newline ++ newline
          ++ "**Benchmark statement**" ++ newline ++ newline
          ++ ".. code-block:: python" ++ newline ++ newline
          ++ indent (code self) 4 ++ newline ++ newline)%string
    with (String nl (".. code-block:: python" ++ newline ++ newline
          ++ indent (setup self) 4 ++ newline ++ newline
          ++ "**Benchmark statement**" ++ newline ++ newline
          ++ ".. code-block:: python" ++ newline ++ newline
          ++ indent (code self) 4 ++ newline ++ newline))%string.
  rewrite split_lines_cons_nl.
  rewrite split_lines_literal by one_line_literal.
  change (newline ++ indent (setup self) 4 ++ newline ++ newline
          ++ "**Benchmark statement**" ++ newline ++ newline
          ++ ".. code-block:: python" ++ newline ++ newline
          ++ indent (code self) 4 ++ newline ++ newline)%string
    with (String nl (indent (setup self) 4 ++ String nl (String nl
          ("**Benchmark statement**" ++ newline ++ String nl
          (".. code-block:: python" ++ newline ++ String nl
          (indent (code self) 4 ++ String nl (String nl "")))))))%string.
  rewrite split_lines_cons_nl, split_lines_app, split_lines_indent, split_lines_cons_nl.
  rewrite split_lines_literal by one_line_literal.
  rewrite split_lines_cons_nl.
  rewrite split_lines_literal by one_line_literal.
  rewrite split_lines_cons_nl, split_lines_app, split_lines_indent.
  reflexivity.
Qed.

(** X6: the lines of the rendering without an image: the two headings and
    directives of the template, with the lines of the setup and of the code
    behind four spaces in their blocks. *)
Theorem to_rst_lines (self : Benchmark) :
  split_lines (to_rst self None)
  = ["**Benchmark setup**"; ""; ".. code-block:: python"; ""]%string
    ++ map (fun x => ("    " ++ x)%string) (split_lines (setup self))
    ++ [""; "**Benchmark statement**"; ""; ".. code-block:: python"; ""]%string
    ++ map (fun x => ("    " ++ x)%string) (split_lines (code self))
    ++ [""; ""]%string.
Proof.
  pose proof (split_lines_to_rst self) as H.
  rewrite H. reflexivity.
Qed.

Lemma blocks_split (l1 l2 r1 r2 : list string) (m : string) :
  Forall indented l1 -> Forall indented l2 -> ~ indented m ->
  l1 ++ m :: r1 = l2 ++ m :: r2 -> l1 = l2 /\ r1 = r2.
Proof.
  intros H1 H2 Hm. revert l2 H2.
  induction H1 as [| x l1 Hx H1 IH]; intros l2 H2 Heq.
  - destruct H2 as [| y l2 Hy H2]; simpl in Heq.
    + inversion Heq. auto.
    + inversion Heq; subst. contradiction.
  - destruct H2 as [| y l2 Hy H2]; simpl in Heq.
    + inversion Heq; subst. contradiction.
    + inversion Heq; subst. destruct (IH l2 H2 ltac:(assumption)) as [-> ->]. auto.
Qed.

Lemma indented_lines (l : list string) :
  Forall indented (map (fun x => ("    " ++ x)%string) l).
Proof.
  apply List.Forall_forall. intros x Hx. apply List.in_map_iff in Hx.
  destruct Hx as [y [<- _]]. now exists y.
Qed.

Lemma not_indented_empty : ~ indented "".
Proof. intros [y Hy]. discriminate Hy. Qed.

Lemma map_indent_inj (l1 l2 : list string) :
  map (fun x => ("    " ++ x)%string) l1 = map (fun x => ("    " ++ x)%string) l2 ->
  l1 = l2.
Proof.
  revert l2. induction l1 as [| x l1 IH]; intros [| y l2] H; simpl in H;
    try discriminate; [reflexivity |].
  inversion H as [[Hxy Hrest]]. f_equal; [| now apply IH].
  exact Hxy.
Qed.

Lemma lines_inj (s1 s2 : string) : split_lines s1 = split_lines s2 -> s1 = s2.
Proof.
  intros H. rewrite <- (join_split_lines s1), <- (join_split_lines s2). now rewrite H.
Qed.

(** X7: the rendering determines the setup and the code: two benchmarks with the
    same rendering have the same setup text and the same code text. *)
Theorem to_rst_determines_texts (b1 b2 : Benchmark) :
  to_rst b1 None = to_rst b2 None ->
  setup b1 = setup b2 /\ code b1 = code b2.
Proof.
  intros H. apply (f_equal split_lines) in H.
  rewrite !split_lines_to_rst in H.
  apply app_inv_head in H.
  cbn [app] in H.
  apply blocks_split in H;
    [| apply indented_lines | apply indented_lines | apply not_indented_empty].
  destruct H as [Hs Hrest].
  split; [apply lines_inj; now apply map_indent_inj |].
  inversion Hrest as [Hc].
  apply blocks_split in Hc;
    [| apply indented_lines | apply indented_lines | apply not_indented_empty].
  destruct Hc as [Hc _]. apply lines_inj. now apply map_indent_inj.
Qed.

Lemma to_rst_determines_texts_witness :
  setup plain = setup decorated /\ code plain = code decorated.
Proof. apply (to_rst_determines_texts plain decorated). reflexivity. Defined.

(** ** [__repr__] *)

Lemma str_app_inv_tail (a b c : string) : (a ++ c = b ++ c)%string -> a = b.
Proof.
  intros H.
  assert (Hl : String.length a = String.length b).
  { apply (f_equal String.length) in H. rewrite !str_length_app in H. lia. }
  revert b H Hl. induction a as [| x a IH]; intros [| y b] H Hl;
    try discriminate Hl; [reflexivity |].
  rewrite !str_app_cons in H. inversion H; subst. f_equal.
  apply IH; auto.
Qed.

(** X8: two benchmarks with different names have different representations. *)
Theorem repr_names (b1 b2 : Benchmark) (n1 n2 : string) :
  name b1 = Some n1 -> name b2 = Some n2 -> n1 <> n2 ->
  __repr__ b1 <> __repr__ b2.
Proof.
  unfold __repr__. intros -> -> Hne H. simpl format_s in H.
  apply (inj (String.append "Benchmark('")) in H.
  now apply str_app_inv_tail in H.
Qed.

Lemma repr_names_witness : __repr__ decorated <> __repr__ renamed.
Proof.
  apply (repr_names decorated renamed "call f" "call g");
    [reflexivity | reflexivity | discriminate].
Defined.

Lemma le_bytes_length (n : nat) : forall x, length (MD5.le_bytes n x) = n.
Proof. induction n as [| n IH]; intros x; simpl; [reflexivity | now rewrite IH]. Qed.

Lemma le_bytes_range (n : nat) :
  forall x, Forall (fun b => 0 <= b < 256) (MD5.le_bytes n x).
Proof.
  induction n as [| n IH]; intros x; simpl; constructor.
  - apply Z.mod_pos_bound. lia.
  - apply IH.
Qed.

Lemma digest_length (msg : list Z) : length (MD5.digest msg) = 16%nat.
Proof. unfold MD5.digest. cbv zeta. now rewrite !length_app, !le_bytes_length. Qed.

Lemma digest_range (msg : list Z) :
  Forall (fun b => 0 <= b < 256) (MD5.digest msg).
Proof.
  unfold MD5.digest. cbv zeta.
  repeat (apply Forall_app; split); apply le_bytes_range.
Qed.

Lemma hex_digit_char (n : Z) : 0 <= n < 16 -> In (MD5.hex_digit n) hex_chars.
Proof.
  intros H. unfold MD5.hex_digit.
  assert (Hlen : length hex_chars = 16%nat) by reflexivity.
  apply nth_In. fold hex_chars. lia.
Qed.

Lemma hex_of_bytes_chars (bs : list Z) :
  Forall (fun b => 0 <= b < 256) bs ->
  Forall (fun c => In c hex_chars) (list_ascii_of_string (MD5.hex_of_bytes bs))
  /\ String.length (MD5.hex_of_bytes bs) = (2 * length bs)%nat.
Proof.
  unfold MD5.hex_of_bytes. rewrite list_ascii_of_string_of_list_ascii.
  rewrite length_string_of_list_ascii.
  induction 1 as [| b bs Hb _ [IH1 IH2]]; simpl.
  - split; [constructor | reflexivity].
  - split.
    + constructor; [apply hex_digit_char; split;
        [apply Z.div_pos; lia | apply Z.div_lt_upper_bound; lia] |].
      constructor; [apply hex_digit_char; apply Z.mod_pos_bound; lia |].
      exact IH1.
    + rewrite IH2. lia.
Qed.

(** X9: a fingerprint is always 32 lowercase hexadecimal characters. *)
Theorem checksum_format (self : Benchmark) :
  String.length (checksum self) = 32%nat
  /\ Forall (fun c => In c hex_chars) (list_ascii_of_string (checksum self)).
Proof.
  unfold checksum, MD5.hexdigest.
  destruct (hex_of_bytes_chars _ (digest_range
              (MD5.bytes_of_string (setup self ++ code self ++ cleanup self))))
    as [Hc Hl].
  split; [| exact Hc]. rewrite Hl, digest_length. reflexivity.
Qed.

Section ProfilerFacts.

Context {R : Runtime} {Stats : Type} (sorted_stats : list prof_event -> Stats)
  (compile_ : string -> option exn).

Lemma exec_loop_inv (code : string) (n : nat) :
  forall (env env' : Env R) (r : option exn) (evs : list prof_event),
    exec_loop code n env = (r, env', evs) ->
    match r with
    | None => evs = List.repeat (PfExec code None) n
    | Some e =>
        exists k, (k < n)%nat
                  /\ evs = List.repeat (PfExec code None) k ++ [PfExec code (Some e)]
    end.
Proof.
  induction n as [| n IH]; intros env env' r evs H; simpl in H.
  - inversion H; subst. reflexivity.
  - destruct (exec_ R code env) as [[e |] env1].
    + inversion H; subst. exists 0%nat. split; [lia | reflexivity].
    + destruct (exec_loop code n env1) as [[r' env2] evs'] eqn:E.
      inversion H; subst. apply IH in E. destruct r as [e |].
      * destruct E as [k [Hk ->]]. exists (S k). split; [lia | reflexivity].
      * now rewrite E.
Qed.

(** X10: a profile that returns has run the setup once, compiled the code once
    and executed it [ncalls] times (no time when [ncalls] is not positive),
    in that order, and nothing else; its statistics are those of that
    call. *)
Theorem profile_runs_ncalls (self : Benchmark) (ncalls : Z) (st : Stats)
    (env : Env R) (j : list prof_event) :
  profile sorted_stats compile_ self ncalls = (Return st, env, j) ->
  j = [PfSetup (setup self); PfCompile (code self)]
      ++ List.repeat (PfExec (code self) None) (Z.to_nat ncalls)
  /\ st = sorted_stats j.
Proof.
  unfold profile.
  destruct (exec_ R (setup self) (globals_copy R)) as [[e |] ns1]; [discriminate |].
  destruct (compile_ (code self)); [discriminate |].
  destruct (exec_loop (code self) (Z.to_nat ncalls) ns1) as [[r' ns2] evs] eqn:E.
  apply exec_loop_inv in E.
  destruct r'; [discriminate |]. intros H. inversion H; subst. auto.
Qed.

(** X11: a profile that raises stopped there: the exception is that of the
    setup, with nothing compiled or executed, or that of the compilation,
    with nothing executed, or that of one execution of the code, which comes
    after fewer than [ncalls] executions that did not raise and is the last
    one. *)
Theorem profile_stops_at_failure (self : Benchmark) (ncalls : Z) (e : exn)
    (env : Env R) (j : list prof_event) :
  profile sorted_stats compile_ self ncalls = (Raise e, env, j) ->
  (j = [PfSetup (setup self)]
   /\ fst (exec_ R (setup self) (globals_copy R)) = Some e)
  \/ (j = [PfSetup (setup self); PfCompile (code self)]
      /\ compile_ (code self) = Some e)
  \/ exists k, (k < Z.to_nat ncalls)%nat
               /\ j = [PfSetup (setup self); PfCompile (code self)]
                      ++ List.repeat (PfExec (code self) None) k
                      ++ [PfExec (code self) (Some e)].
Proof.
  unfold profile.
  destruct (exec_ R (setup self) (globals_copy R)) as [[e0 |] ns1].
  { intros H. inversion H; subst. left. auto. }
  destruct (compile_ (code self)) as [e0 |] eqn:Ec.
  { intros H. inversion H; subst. right. left. auto. }
  destruct (exec_loop (code self) (Z.to_nat ncalls) ns1) as [[r' ns2] evs] eqn:E.
  apply exec_loop_inv in E.
  destruct r' as [e0 |]; [| discriminate].
  intros H. inversion H; subst. right. right.
  destruct E as [k [Hk ->]]. exists k. auto.
Qed.

(** X12: with a setup and a code that do not fail and a count that is not
    positive, the profile returns without executing the code. *)
Theorem profile_nonpositive (self : Benchmark) (ncalls : Z) (ns1 : Env R) :
  exec_ R (setup self) (globals_copy R) = (None, ns1) ->
  compile_ (code self) = None ->
  ncalls <= 0 ->
  profile sorted_stats compile_ self ncalls
  = (Return (sorted_stats [PfSetup (setup self); PfCompile (code self)]),
     ns1, [PfSetup (setup self); PfCompile (code self)]).
Proof.
  intros Hs Hc Hn. unfold profile. rewrite Hs, Hc.
  replace (Z.to_nat ncalls) with 0%nat by lia. reflexivity.
Qed.

End ProfilerFacts.

Lemma profile_runs_ncalls_witness :
  [PfSetup "x = 1"; PfCompile "pass"; PfExec "pass" None; PfExec "pass" None;
   PfExec "pass" None]
  = [PfSetup (setup ok_bench); PfCompile (code ok_bench)]
    ++ List.repeat (PfExec (code ok_bench) None) (Z.to_nat 3)
  /\ 3%nat
     = toy_stats
         [PfSetup "x = 1"; PfCompile "pass"; PfExec "pass" None;
          PfExec "pass" None; PfExec "pass" None].
Proof.
  apply (@profile_runs_ncalls two_seconds nat toy_stats toy_compile ok_bench 3 3%nat
           (mkToy ["x = 1"; "pass"; "pass"; "pass"]%string [])).
  reflexivity.
Defined.

Lemma profile_stops_at_failure_witness :
  ([PfSetup "x = 1"; PfCompile "raise"; PfExec "raise" (Some toy_error)]
   = [PfSetup (setup failing_bench)]
   /\ fst (exec_ two_seconds (setup failing_bench) (globals_copy two_seconds))
      = Some toy_error)
  \/ ([PfSetup "x = 1"; PfCompile "raise"; PfExec "raise" (Some toy_error)]
      = [PfSetup (setup failing_bench); PfCompile (code failing_bench)]
      /\ toy_compile (code failing_bench) = Some toy_error)
  \/ exists k, (k < Z.to_nat 5)%nat
               /\ [PfSetup "x = 1"; PfCompile "raise";
                   PfExec "raise" (Some toy_error)]
                  = [PfSetup (setup failing_bench); PfCompile (code failing_bench)]
                    ++ List.repeat (PfExec (code failing_bench) None) k
                    ++ [PfExec (code failing_bench) (Some toy_error)].
Proof.
  apply (@profile_stops_at_failure two_seconds nat toy_stats toy_compile
           failing_bench 5 toy_error (mkToy ["x = 1"%string] [])).
  reflexivity.
Defined.

Lemma profile_nonpositive_witness :
  toy_profile ok_bench (-2)
  = (Return (toy_stats [PfSetup (setup ok_bench); PfCompile (code ok_bench)]),
     mkToy ["x = 1"%string] [],
     [PfSetup (setup ok_bench); PfCompile (code ok_bench)]).
Proof.
  apply (@profile_nonpositive two_seconds nat toy_stats toy_compile ok_bench (-2)
           (mkToy ["x = 1"%string] [])); [reflexivity | reflexivity | lia].
Defined.

Section BudgetFacts.

Context {R : Runtime}.

Lemma timed_counts_app (j1 j2 : list event) :
  timed_counts (j1 ++ j2) = timed_counts j1 ++ timed_counts j2.
Proof. unfold timed_counts. apply flat_map_app. Qed.

Lemma trials_within_ret {A : Type} (a : A) : trials_within 0 (@ret R A a).
Proof. intros s o s' H. inversion H; subst. lia. Qed.

Lemma trials_within_lift {A : Type} (o : outcome A) : trials_within 0 (@lift R A o).
Proof. intros s o' s' H. inversion H; subst. lia. Qed.

Lemma trials_within_weaken {A : Type} (k k' : nat) (c : M R A) :
  (k <= k')%nat -> trials_within k c -> trials_within k' c.
Proof. intros Hk Hc s o s' H. specialize (Hc s o s' H). lia. Qed.

Lemma trials_within_bind {A B : Type} (k1 k2 : nat) (c : M R A) (f : A -> M R B) :
  trials_within k1 c -> (forall a, trials_within k2 (f a)) ->
  trials_within (k1 + k2) (bind c f).
Proof.
  intros Hc Hf s o s' H. unfold bind in H.
  destruct (c s) as [[a | e] s1] eqn:E.
  - specialize (Hc _ _ _ E). specialize (Hf a _ _ _ H). lia.
  - inversion H; subst. specialize (Hc _ _ _ E). lia.
Qed.

Lemma trials_within_record (ev : event) :
  timed_counts [ev] = [] -> trials_within 0 (@record R ev).
Proof.
  intros Hev s o s' H. inversion H; subst. cbn [journal].
  rewrite timed_counts_app, Hev, app_nil_r. lia.
Qed.

Lemma trials_within_in_ns (f : Env R -> option exn * Env R) :
  trials_within 0 (in_ns f).
Proof.
  intros s o s' H. unfold in_ns in H. destruct (f (ns s)) as [r ns1].
  inversion H; subst. cbn [journal]. lia.
Qed.

Lemma trials_within_timeit (stmt : string) (number : Z) :
  trials_within 1 (@timeit R stmt number).
Proof.
  intros s o s' H. rewrite timeit_eq in H. inversion H; subst. cbn [journal].
  rewrite timed_counts_app, length_app. simpl. lia.
Qed.

Lemma trials_within_repeat_trials (stmt : string) (number : Z) (n : nat) :
  trials_within n (repeat_trials R stmt n number).
Proof.
  induction n as [| n IH]; simpl.
  - apply trials_within_ret.
  - apply (trials_within_weaken (1 + (n + 0))); [lia |].
    apply trials_within_bind; [apply trials_within_timeit |]. intros t.
    apply trials_within_bind; [exact IH |]. intros r. apply trials_within_ret.
Qed.

Lemma trials_within_calibrate (stmt : string) (iters : list Z) :
  forall c, trials_within (length iters) (@calibrate R stmt iters c).
Proof.
  induction iters as [| i iters IH]; intros c; simpl.
  - apply trials_within_ret.
  - change (S (length iters)) with (1 + length iters)%nat.
    apply trials_within_bind; [apply trials_within_timeit |]. intros t.
    destruct (Qle_bool (1 # 10) t).
    + eapply trials_within_weaken; [| apply trials_within_ret]. lia.
    + apply IH.
Qed.

(** X13: a measurement times at most [repeat] trials when the iteration count is
    given and at most nine more when it is calibrated, whether it returns or
    raises. *)
Theorem measurement_budget (stmt : string) (ncalls : option Z) (rep : Z)
    (force_ms : bool) (s s' : state R) (o : outcome (gmap string pyval)) :
  magic_timeit stmt ncalls rep force_ms s = (o, s') ->
  (length (timed_counts (journal s'))
   <= length (timed_counts (journal s))
      + (match ncalls with None => 9 | Some _ => 0 end + Z.to_nat rep))%nat.
Proof.
  revert s o s'.
  change (trials_within
            (match ncalls with None => 9 | Some _ => 0 end + Z.to_nat rep)
            (@magic_timeit R stmt ncalls rep force_ms)).
  unfold magic_timeit.
  apply (trials_within_weaken
           (0 + (0 + (match ncalls with None => 9 | Some _ => 0 end
                      + (Z.to_nat rep + (0 + (0 + (0 + (0 + 0))))))))%nat);
    [lia |].
  apply trials_within_bind; [now apply trials_within_record |]. intros _.
  apply trials_within_bind; [apply trials_within_in_ns |]. intros _.
  apply trials_within_bind.
  { unfold choose_number. destruct ncalls;
      [apply trials_within_ret | apply (trials_within_calibrate stmt (py_range 1 10))]. }
  intros number.
  apply trials_within_bind; [apply trials_within_repeat_trials |]. intros trials.
  apply trials_within_bind; [apply trials_within_lift |]. intros m.
  apply trials_within_bind; [apply trials_within_lift |]. intros best.
  apply trials_within_bind; [apply trials_within_lift |]. intros factor.
  apply trials_within_bind; [apply trials_within_lift |]. intros unit_.
  apply trials_within_ret.
Qed.

End BudgetFacts.

Lemma measurement_budget_witness :
  (length (timed_counts (journal (snd (slow_measure (toy_start (1 # 20) [])))))
   <= length (timed_counts (journal (toy_start (1 # 20) [])))
      + (9 + Z.to_nat 3))%nat.
Proof.
  apply (@measurement_budget (toy (1 # 20) []) "pass" None 3 false
           (toy_start (1 # 20) [])
           (snd (slow_measure (toy_start (1 # 20) [])))
           (fst (slow_measure (toy_start (1 # 20) [])))).
  reflexivity.
Defined.

Section MeasureFacts.

Context {R : Runtime}.

(** ** Failures before and during the trials *)

(** X14: when the code does not compile, [run] times no trial: it goes from the
    setup to the cleanup and returns the failure record of the compilation
    error. *)
Theorem uncompilable_code_is_captured (b : Benchmark) (s : state R)
    (ns1 ns2 ns3 : Env R) (e : exn) :
  exec_ R (setup b) (globals_copy R) = (None, ns1) ->
  define_inner R (code b) ns1 = (Some e, ns2) ->
  exec_ R (cleanup b) ns2 = (None, ns3) ->
  run b s
  = (Return (failure_record e),
     mkState ns3
       (journal s ++ [EvSetup (setup b); EvDefineInner (code b);
                      EvCleanup (cleanup b)])).
Proof.
  intros Hs Hd Hc.
  rewrite (run_setup_ok b s
             (mkState ns2 ((journal s ++ [EvSetup (setup b)])
                           ++ [EvDefineInner (code b)]))
             ns1 ns3 (Raise e) None Hs).
  - cbn [journal run_result]. now rewrite <- !app_assoc.
  - unfold magic_timeit, bind, record, in_ns. simpl. now rewrite Hd.
  - exact Hc.
Qed.

(** X15: when the first timed trial raises, the measurement raises the same
    exception and times nothing more; the first trial is that of
    calibration when the iteration count is not given. *)
Theorem first_trial_failure (stmt : string) (ncalls : option Z) (rep : Z)
    (force_ms : bool) (s : state R) (ns1 ns2 : Env R) (e : exn) :
  define_inner R stmt (ns s) = (None, ns1) ->
  ncalls = None \/ 1 <= rep ->
  timeit_ R stmt (first_count ncalls) ns1 = (Raise e, ns2) ->
  magic_timeit stmt ncalls rep force_ms s
  = (Raise e,
     mkState ns2
       (journal s ++ [EvDefineInner stmt;
                      EvTimeit stmt (first_count ncalls) (Raise e)])).
Proof.
  intros Hd Hfirst Ht.
  unfold magic_timeit, bind, record, in_ns. simpl. rewrite Hd.
  destruct ncalls as [n |]; simpl in *.
  - destruct Hfirst as [Hn | Hrep]; [discriminate |].
    unfold ret, Timer_repeat.
    destruct (Z.to_nat rep) as [| k] eqn:Ek; [lia |].
    simpl. unfold bind. rewrite timeit_eq. cbn [ns journal]. rewrite Ht. simpl.
    now rewrite <- app_assoc.
  - unfold choose_number. simpl. unfold bind. rewrite timeit_eq. cbn [ns journal].
    rewrite Ht. simpl. now rewrite <- app_assoc.
Qed.

(** ** The keys of a record *)

(** X16: a record returned by [run] has either the keys [loops], [repeat],
    [timing], [units] and [success], with [success] true, or the keys
    [success] and [traceback], with [success] false. *)
Theorem run_record_keys (b : Benchmark) (s s' : state R) (r : gmap string pyval) :
  run b s = (Return r, s') ->
  (dom r = list_to_set ["loops"; "repeat"; "timing"; "units"; "success"]%string
   /\ r !! "success"%string = Some (PyBool true))
  \/ (dom r = list_to_set ["success"; "traceback"]%string
      /\ r !! "success"%string = Some (PyBool false)).
Proof.
  intros H. apply run_inv in H. destruct H as (ns1 & o & s2 & _ & Hm & ->).
  destruct o as [r0 | e]; simpl.
  - left. apply magic_timeit_inv in Hm.
    destruct Hm as (ns2 & n & s3 & trials & m & factor & unit_
                    & _ & _ & _ & _ & _ & _ & _ & ->).
    split; [| apply lookup_insert_eq].
    unfold report. rewrite !dom_insert_L, dom_empty_L. simpl. set_solver.
  - right. split; [| apply failure_record_lookups].
    unfold failure_record. rewrite !dom_insert_L, dom_empty_L. simpl. set_solver.
Qed.

End MeasureFacts.

Lemma uncompilable_code_is_captured_witness :
  run uncompilable fresh
  = (Return (failure_record (Exn "SyntaxError" "invalid syntax" EmptyString)),
     @mkState two_seconds (mkToy ["x = 1"; "del x"]%string [])
       (journal fresh ++ [EvSetup (setup uncompilable);
                          EvDefineInner (code uncompilable);
                          EvCleanup (cleanup uncompilable)])).
Proof.
  apply (@uncompilable_code_is_captured two_seconds uncompilable fresh
           (mkToy ["x = 1"%string] []) (mkToy ["x = 1"%string] [])
           (mkToy ["x = 1"; "del x"]%string [])
           (Exn "SyntaxError" "invalid syntax" EmptyString)); reflexivity.
Defined.

Lemma first_trial_failure_witness :
  @magic_timeit two_seconds "raise" None 3 true after_setup
  = (Raise toy_error,
     @mkState two_seconds (mkToy ["x = 1"; "def inner"]%string [])
       (journal after_setup
        ++ [EvDefineInner "raise";
            EvTimeit "raise" (first_count None) (Raise toy_error)])).
Proof.
  apply (@first_trial_failure two_seconds "raise" None 3 true after_setup
           (mkToy ["x = 1"; "def inner"]%string [])
           (mkToy ["x = 1"; "def inner"]%string []) toy_error);
    [reflexivity | left; reflexivity | reflexivity].
Defined.

Lemma run_record_keys_witness :
  (dom (returned (run failing_bench) fresh)
   = list_to_set ["loops"; "repeat"; "timing"; "units"; "success"]%string
   /\ returned (run failing_bench) fresh !! "success"%string = Some (PyBool true))
  \/ (dom (returned (run failing_bench) fresh)
      = list_to_set ["success"; "traceback"]%string
      /\ returned (run failing_bench) fresh !! "success"%string
         = Some (PyBool false)).
Proof.
  apply (@run_record_keys two_seconds failing_bench fresh
           (snd (run failing_bench fresh))).
  reflexivity.
Defined.

Lemma getitem_scaling (order : Z) (factor : Q) :
  py_getitem scaling order = Return factor ->
  (order = 0 -> factor = 1%Q) /\ (order = 1 -> factor = 1000%Q)
  /\ (order = 2 -> factor = 1000000%Q) /\ (order = 3 -> factor = 1000000000%Q).
Proof. intros H. repeat split; intros ->; now inversion H. Qed.

Lemma getitem_units (order : Z) (unit_ : string) :
  py_getitem units order = Return unit_ ->
  (order = 0 -> unit_ = "s"%string) /\ (order = 1 -> unit_ = "ms"%string)
  /\ (order = 2 -> unit_ = "us"%string) /\ (order = 3 -> unit_ = "ns"%string).
Proof. intros H. repeat split; intros ->; now inversion H. Qed.

Section RangeFacts.

Context {R : Runtime}.

(** X18: a negative iteration count is accepted: when the trial times are not
    negative the measurement returns, reports that count as [loops] and a
    time per iteration that is not positive, in nanoseconds. *)
Theorem negative_count_accepted (stmt : string) (rep n : Z)
    (s s2 : state R) (ns1 : Env R) (trials : list Q) :
  define_inner R stmt (ns s) = (None, ns1) ->
  n < 0 ->
  1 <= rep ->
  Timer_repeat stmt rep n
    (mkState ns1 (journal s ++ [EvDefineInner stmt])) = (Return trials, s2) ->
  Forall (fun t => (0 <= t)%Q) trials ->
  exists m : Q,
    In m trials
    /\ (m / inject_Z n <= 0)%Q
    /\ magic_timeit stmt (Some n) rep false s
       = (Return (report n rep (m / inject_Z n) 1000000000 "ns"), s2).
Proof.
  intros Hd Hn Hrep Ht Hall.
  destruct (Timer_repeat_inv _ _ _ _ _ _ Ht) as [_ Hlen].
  assert (Hne : trials <> []) by (intros ->; simpl in Hlen; lia).
  destruct (py_min_nonempty trials Hne) as [m Hm].
  destruct (py_min_spec trials m Hm) as [Hin _].
  assert (Hm0 : (0 <= m)%Q) by (rewrite List.Forall_forall in Hall; now apply Hall).
  assert (Hbest : (m / inject_Z n <= 0)%Q).
  { destruct n as [| p | p]; try lia.
    unfold Qle in *. simpl in *. lia. }
  destruct (magic_timeit_intro stmt (Some n) rep false s _ s2 ns1 n trials m
              Hd eq_refl Ht Hm ltac:(lia)) as (factor & unit_ & Hf & Hu & Hrun).
  destruct (select_order_adaptive (m / inject_Z n)) as (_ & _ & _ & _ & _ & Hneg).
  apply getitem_scaling in Hf. apply getitem_units in Hu.
  destruct Hf as (_ & _ & _ & F3). destruct Hu as (_ & _ & _ & U3).
  rewrite (F3 (Hneg Hbest)), (U3 (Hneg Hbest)) in Hrun.
  exists m. auto.
Qed.

End RangeFacts.

Lemma negative_count_accepted_witness :
  exists m : Q,
    In m [5; 2; 8]%Q
    /\ (m / inject_Z (-4) <= 0)%Q
    /\ negative_count (toy_start 0 [5; 2; 8]%Q)
       = (Return (report (-4) 3 (m / inject_Z (-4)) 1000000000 "ns"),
          snd (negative_count (toy_start 0 [5; 2; 8]%Q))).
Proof.
  apply (@negative_count_accepted (toy 0 [5; 2; 8]%Q) "pass" 3 (-4)
           (toy_start 0 [5; 2; 8]%Q)
           (snd (negative_count (toy_start 0 [5; 2; 8]%Q)))
           (mkToy ["def inner"%string] [5; 2; 8]%Q) [5; 2; 8]%Q);
    [reflexivity | lia | lia | reflexivity |].
  repeat constructor; discriminate.
Defined.

(** ** More on discovery *)

(** X20: gathering from two namespaces one after the other is gathering from
    each and appending. *)
Theorem gather_benchmarks_app (ns1 ns2 : list (string * pyobj)) :
  gather_benchmarks (ns1 ++ ns2) = gather_benchmarks ns1 ++ gather_benchmarks ns2.
Proof.
  unfold gather_benchmarks.
  rewrite !gather_fold_app, map_app, flat_map_app. reflexivity.
Qed.

Lemma filter_flat_suite (elems : list pyobj) :
  Forall (fun v => isinstance_BenchmarkSuite v = false) elems ->
  List.filter isinstance_Benchmark elems = flat_map flatten_value elems.
Proof.
  induction 1 as [| v elems Hv _ IH]; [reflexivity |].
  simpl. rewrite IH. destruct v; simpl in *; try reflexivity. discriminate.
Qed.

(** X21: when no suite holds a suite, [gather_benchmarks] returns what the
    recursive flattening returns. *)
Theorem gather_flat_agrees (ns : list (string * pyobj)) :
  no_nested_suite ns -> gather_benchmarks ns = flatten_spec ns.
Proof.
  unfold no_nested_suite, gather_benchmarks, flatten_spec.
  rewrite gather_fold_app. simpl.
  induction (map snd ns) as [| v vs IH]; intros H; [reflexivity |].
  simpl. rewrite IH by (intros elems Hin; apply H; now right).
  f_equal. destruct v as [b | elems | s | z]; try reflexivity.
  simpl. apply filter_flat_suite. apply H. now left.
Qed.

Lemma gather_flat_agrees_witness :
  gather_benchmarks ns_flat = flatten_spec ns_flat.
Proof.
  apply (gather_flat_agrees ns_flat).
  intros elems Hin. simpl in Hin.
  destruct Hin as [H | [H | [H | [H | []]]]]; inversion H; subst;
    repeat constructor.
Defined.

Lemma filter_within_flatten (elems : list pyobj) (x : pyobj) :
  In x (List.filter isinstance_Benchmark elems) ->
  In x (flat_map flatten_value elems).
Proof.
  intros H. apply List.filter_In in H. destruct H as [Hin Hb].
  apply List.in_flat_map. exists x. split; [exact Hin |].
  destruct x; try discriminate. simpl. now left.
Qed.

(** X22: whatever [gather_benchmarks] returns, the recursive flattening returns
    too. *)
Theorem gather_within_flatten (ns : list (string * pyobj)) (x : pyobj) :
  In x (gather_benchmarks ns) -> In x (flatten_spec ns).
Proof.
  unfold gather_benchmarks, flatten_spec. rewrite gather_fold_app. simpl.
  intros H. apply List.in_flat_map in H. destruct H as [v [Hv Hx]].
  apply List.in_flat_map. exists v. split; [exact Hv |].
  destruct v as [b | elems | s | z]; simpl in *; try contradiction; try exact Hx.
  now apply filter_within_flatten.
Qed.

Lemma gather_within_flatten_witness :
  In (OBenchmark bench_b) (flatten_spec ns_example).
Proof.
  apply (gather_within_flatten ns_example (OBenchmark bench_b)).
  simpl. right. left. reflexivity.
Defined.

(** ** When a measurement returns *)

Section ReturnFacts.

Context {R : Runtime}.

Lemma calibrate_positive (stmt : string) (iters : list Z) :
  forall (c n : Z) (s s' : state R),
    calibrate stmt iters c s = (Return n, s') -> 0 < c -> 0 < n.
Proof.
  induction iters as [| i iters IH]; intros c n s s' H Hc; simpl in H.
  - inversion H; subst. exact Hc.
  - unfold bind in H. rewrite timeit_eq in H.
    destruct (timeit_ R stmt c (ns s)) as [[t | e] ns1]; simpl in H; [| discriminate].
    destruct (Qle_bool (1 # 10) t).
    + inversion H; subst. exact Hc.
    + apply IH in H; lia.
Qed.

Lemma calibrate_raise (stmt : string) (iters : list Z) :
  forall (c : Z) (s s' : state R) (e : exn),
    calibrate stmt iters c s = (Raise e, s') ->
    exists evs ev, journal s' = journal s ++ evs ++ [ev] /\ raised_trial ev = true.
Proof.
  induction iters as [| i iters IH]; intros c s s' e H; simpl in H.
  - discriminate H.
  - unfold bind in H. rewrite timeit_eq in H.
    destruct (timeit_ R stmt c (ns s)) as [[t | e0] ns1]; simpl in H.
    + destruct (Qle_bool (1 # 10) t); [discriminate |].
      apply IH in H. destruct H as (evs & ev & Hj & Hev). cbn [journal] in Hj.
      exists (EvTimeit stmt c (Return t) :: evs), ev.
      split; [| exact Hev]. rewrite Hj, <- app_assoc. reflexivity.
    + inversion H; subst. exists [], (EvTimeit stmt c (Raise e)).
      split; reflexivity.
Qed.

Lemma repeat_trials_raise (stmt : string) (number : Z) (k : nat) :
  forall (s s' : state R) (e : exn),
    repeat_trials R stmt k number s = (Raise e, s') ->
    exists evs ev, journal s' = journal s ++ evs ++ [ev] /\ raised_trial ev = true.
Proof.
  induction k as [| k IH]; intros s s' e H; simpl in H.
  - discriminate H.
  - unfold bind in H. rewrite timeit_eq in H.
    destruct (timeit_ R stmt number (ns s)) as [[t | e0] ns1]; simpl in H.
    + destruct (repeat_trials R stmt k number _) as [[ts | e1] s1] eqn:E;
        [discriminate |].
      inversion H; subst. apply IH in E.
      destruct E as (evs & ev & Hj & Hev). cbn [journal] in Hj.
      exists (EvTimeit stmt number (Return t) :: evs), ev.
      split; [| exact Hev]. rewrite Hj, <- app_assoc. reflexivity.
    + inversion H; subst. exists [], (EvTimeit stmt number (Raise e)).
      split; reflexivity.
Qed.

Lemma no_raised_last (evs0 evs : list event) (ev : event) :
  Forall (fun ev => raised_trial ev = false) evs0 ->
  evs0 = evs ++ [ev] -> raised_trial ev = true -> False.
Proof.
  intros Hall -> Hev. apply Forall_app in Hall. destruct Hall as [_ Hl].
  inversion Hl; subst. congruence.
Qed.

(** X19: a measurement returns a record whenever the statement compiles, no
    trial it times raises, the repeat count is at least 1 and the iteration
    count is either left out or not 0. *)
Theorem magic_timeit_returns (stmt : string) (ncalls : option Z) (rep : Z)
    (force_ms : bool) (s s' : state R) (ns1 : Env R)
    (o : outcome (gmap string pyval)) (evs : list event) :
  magic_timeit stmt ncalls rep force_ms s = (o, s') ->
  define_inner R stmt (ns s) = (None, ns1) ->
  journal s' = journal s ++ evs ->
  Forall (fun ev => raised_trial ev = false) evs ->
  1 <= rep ->
  ncalls <> Some 0 ->
  exists r, o = Return r.
Proof.
  intros H Hd Hj Hall Hrep Hn.
  destruct o as [r | e]; [now exists r | exfalso].
  destruct (choose_number stmt ncalls
              (mkState ns1 (journal s ++ [EvDefineInner stmt])))
    as [[number | e1] s2] eqn:Ec.
  - assert (Hnum : number <> 0).
    { unfold choose_number in Ec. destruct ncalls as [n |].
      - inversion Ec; subst. congruence.
      - apply calibrate_positive in Ec; lia. }
    destruct (Timer_repeat stmt rep number s2) as [[trials | e2] s3] eqn:Et.
    + destruct (Timer_repeat_inv _ _ _ _ _ _ Et) as [_ Hlen].
      assert (Hne : trials <> []) by (intros ->; simpl in Hlen; lia).
      destruct (py_min_nonempty trials Hne) as [m Hm].
      destruct (magic_timeit_intro stmt ncalls rep force_ms s s2 s3 ns1 number
                  trials m Hd Ec Et Hm Hnum) as (factor & unit_ & _ & _ & Hrun).
      rewrite Hrun in H. discriminate H.
    + unfold magic_timeit, bind, record, in_ns, lift, ret in H. simpl in H.
      rewrite Hd, Ec, Et in H. inversion H; subst.
      unfold Timer_repeat in Et. apply repeat_trials_raise in Et.
      destruct Et as (evs1 & ev & Hj1 & Hev).
      assert (Hc : exists evs0, journal s2 = journal s ++ evs0).
      { unfold choose_number in Ec. destruct ncalls as [n |].
        - inversion Ec; subst. cbn [journal]. eauto.
        - destruct (timing_only_calibrate stmt (py_range 1 10) 1 _ _ _ Ec)
            as [evs0 [H0 _]].
          cbn [journal] in H0. rewrite H0, <- app_assoc. eauto. }
      destruct Hc as [evs0 Hc].
      rewrite Hj1, Hc, <- app_assoc in Hj. apply app_inv_head in Hj.
      rewrite app_assoc in Hj.
      exact (no_raised_last evs (evs0 ++ evs1) ev Hall (eq_sym Hj) Hev).
  - unfold magic_timeit, bind, record, in_ns, lift, ret in H. simpl in H.
    rewrite Hd, Ec in H. inversion H; subst.
    unfold choose_number in Ec. destruct ncalls as [n |]; [discriminate |].
    apply calibrate_raise in Ec. destruct Ec as (evs1 & ev & Hj1 & Hev).
    cbn [journal] in Hj1.
    rewrite Hj1, <- app_assoc in Hj. apply app_inv_head in Hj.
    change ([EvDefineInner stmt] ++ evs1 ++ [ev])
      with (([EvDefineInner stmt] ++ evs1) ++ [ev]) in Hj.
    exact (no_raised_last evs ([EvDefineInner stmt] ++ evs1) ev Hall (eq_sym Hj) Hev).
Qed.

End ReturnFacts.

Lemma magic_timeit_returns_witness :
  exists r, fst (@magic_timeit two_seconds "pass" None 3 true after_setup) = Return r.
Proof.
  apply (@magic_timeit_returns two_seconds "pass" None 3 true after_setup
           (snd (@magic_timeit two_seconds "pass" None 3 true after_setup))
           (mkToy ["x = 1"; "def inner"]%string [])
           (fst (@magic_timeit two_seconds "pass" None 3 true after_setup))
           [EvDefineInner "pass"; EvTimeit "pass" 1 (Return (2 * inject_Z 1)%Q);
            EvTimeit "pass" 1 (Return (2 * inject_Z 1)%Q);
            EvTimeit "pass" 1 (Return (2 * inject_Z 1)%Q);
            EvTimeit "pass" 1 (Return (2 * inject_Z 1)%Q)]);
    [reflexivity | reflexivity | reflexivity | | lia | discriminate].
  repeat constructor.
Defined.
